(** * The secure wallet adapter of heyelsa-testdapp ([src/adapter.ts])

    A shallow embedding of the authenticated messaging protocol that the
    adapter runs between the widget's message channel and the wallet
    provider: the [MessageAuthenticator] class (shared secret, nonce ledger,
    HMAC verification and response signing), and the closures of
    [createWalletAdapter] ([handleSecureMessage], [validateIncomingMessage],
    [stripAuthenticationFields], [createSecureResponse],
    [processWalletRequest]).

    Conventions.
    - A JavaScript string is a Rocq [string], read as the UTF-8 bytes of the
      text, so [TextEncoder.encode] is [list_byte_of_string].
    - Numbers are the integers [Z]: the protocol's numbers are millisecond
      timestamps and ages.  The one floating-point expression of the file
      (the balance in ether) is left to the platform, see [etherOfWeiHex].
    - [undefined] stands for an absent property as well: a record field of
      type [JsVal] that holds [JsUndefined] is a field that is not there.
    - [JSON.stringify] and [crypto.subtle] are the platform, a class the
      adapter is written over, so that every theorem holds for whatever the
      platform computes, its throwing included; a reference platform
      (RFC 2104 over FIPS 180-4) runs the model on concrete messages.
    - The wallet provider is a function of the page, [ethereum].
    - The callback [onSharedSecretReceived] is host code: it is called with
      the secret and returns or throws.
    - [handleSecureMessage] is one message handled with nothing in between.
      Of the tasks that may run while a handler awaits, two kinds are
      covered: those between the wallet request and the signing of its
      response ([handleSecureMessage_resume] is the handler from that point
      on, on whatever the state is by then), and those between the checks of
      [verifyIncomingMessage] and its recording of the nonce ([AuthStep] has
      the call suspended at the [await] and resumed later). *)

From Stdlib Require Import ZArith String Ascii List Lia.
From Stdlib.Strings Require Import Byte.
From stdpp Require Import base gmap strings list.
Import ListNotations.
Open Scope Z_scope.

(** ** JavaScript values *)

#[local] Unset Elimination Schemes.
Inductive JsVal : Type :=
| JsUndefined
| JsNull
| JsBool (b : bool)
| JsNum (n : Z)
| JsStr (s : string)
| JsArr (items : list JsVal)
| JsObj (props : list (string * JsVal)).
#[local] Set Elimination Schemes.

(** [!!v] of JavaScript. *)
Definition truthy (v : JsVal) : bool :=
  match v with
  | JsUndefined | JsNull => false
  | JsBool b => b
  | JsNum n => negb (n =? 0)
  | JsStr s => negb (String.eqb s EmptyString)
  | JsArr _ | JsObj _ => true
  end.

Definition truthy_string (s : string) : bool := negb (String.eqb s EmptyString).

(** An optional string property: [undefined] when absent. *)
Definition of_option_string (o : option string) : JsVal :=
  match o with Some s => JsStr s | None => JsUndefined end.

Definition truthy_option_string (o : option string) : bool :=
  truthy (of_option_string o).

(** Outcome of running a piece of JavaScript: a value, or a thrown value. *)
Inductive Completion (A : Type) : Type :=
| Normal (a : A)
| Throw (e : JsVal).
Arguments Normal {A} a.
Arguments Throw {A} e.

(** [new Error(message)]. *)
Definition Error (message : string) : JsVal := JsObj [("message", JsStr message)].

(** The [TypeError] raised by reading a property of [undefined] or [null];
    the text is the engine's. *)
Definition TypeError_nullish (prop : string) : JsVal :=
  Error ("Cannot read properties of undefined or null (reading '" +:+ prop +:+ "')").

Fixpoint assoc (k : string) (props : list (string * JsVal)) : JsVal :=
  match props with
  | [] => JsUndefined
  | (k', v) :: rest => if String.eqb k k' then v else assoc k rest
  end.

(** [v.prop]: throws on [undefined] and [null], is [undefined] where the
    property does not exist. *)
Definition getProp (v : JsVal) (prop : string) : Completion JsVal :=
  match v with
  | JsUndefined | JsNull => Throw (TypeError_nullish prop)
  | JsObj props => Normal (assoc prop props)
  | JsArr items =>
      if String.eqb prop "length" then Normal (JsNum (Z.of_nat (length items)))
      else Normal JsUndefined
  | JsStr s =>
      if String.eqb prop "length" then Normal (JsNum (Z.of_nat (String.length s)))
      else Normal JsUndefined
  | JsBool _ | JsNum _ => Normal JsUndefined
  end.

(** [v?.prop]. *)
Definition getPropOpt (v : JsVal) (prop : string) : JsVal :=
  match v with
  | JsUndefined | JsNull => JsUndefined
  | _ => match getProp v prop with Normal x => x | Throw _ => JsUndefined end
  end.

(** [v[0]]. *)
Definition getFirst (v : JsVal) : Completion JsVal :=
  match v with
  | JsUndefined | JsNull => Throw (TypeError_nullish "0")
  | JsArr items => Normal (match items with x :: _ => x | [] => JsUndefined end)
  | JsStr s => Normal (match s with
                       | String c _ => JsStr (String c EmptyString)
                       | EmptyString => JsUndefined
                       end)
  | JsObj props => Normal (assoc "0" props)
  | JsBool _ | JsNum _ => Normal JsUndefined
  end.

(** ** The interfaces of [adapter.ts] *)

Record AdapterRequest : Type := {
  req_requestId : string;
  req_action : option string;
  req_chain : option string;
  req_params : JsVal
}.

Record AdapterResponse : Type := {
  resp_requestId : string;
  resp_success : bool;
  resp_data : JsVal;
  resp_error : JsVal
}.

(** [action] and [chain] are declared [string], but the cast that produces an
    [AuthenticatedMessage] does not look at them: they are [undefined] in a
    message that leaves them out. *)
Record AuthenticatedMessage : Type := {
  requestId : string;
  action : option string;
  chain : option string;
  params : JsVal;
  timestamp : Z;
  nonce : string;
  signature : string
}.

Record SecureResponse : Type := {
  sr_requestId : string;
  sr_success : bool;
  sr_data : JsVal;
  sr_error : JsVal;
  sr_timestamp : Z;
  sr_signature : string
}.

Record AdapterOptions : Type := {
  opt_sharedSecret : option string;
  (** the callback, if one is registered: host code that is called with the
      secret and returns or throws; what it returns is not used *)
  opt_onSharedSecretReceived : option (string → Completion unit);
  opt_maxMessageAge : option Z;
  opt_debugMode : bool
}.

(** ** class MessageAuthenticator *)

Record MessageAuthenticator : Type := {
  sharedSecret : string;
  usedNonces : gset string;
  maxMessageAge : Z
}.

(** [new MessageAuthenticator()]. *)
Definition new_MessageAuthenticator : MessageAuthenticator :=
  {| sharedSecret := EmptyString; usedNonces := ∅; maxMessageAge := 300000 |}.

Definition setSharedSecret (secret : string) (this : MessageAuthenticator)
  : MessageAuthenticator :=
  {| sharedSecret := secret; usedNonces := ∅; maxMessageAge := maxMessageAge this |}.

Definition getSharedSecret (this : MessageAuthenticator) : string :=
  sharedSecret this.

Definition cleanupOldNonces (this : MessageAuthenticator) : MessageAuthenticator :=
  if (1000 <? size (usedNonces this))%nat
  then {| sharedSecret := sharedSecret this; usedNonces := ∅;
          maxMessageAge := maxMessageAge this |}
  else this.

Definition setMaxMessageAge (ageInMs : Z) (this : MessageAuthenticator)
  : MessageAuthenticator :=
  {| sharedSecret := sharedSecret this; usedNonces := usedNonces this;
     maxMessageAge := ageInMs |}.

Definition addNonce (n : string) (this : MessageAuthenticator) : MessageAuthenticator :=
  {| sharedSecret := sharedSecret this; usedNonces := {[ n ]} ∪ usedNonces this;
     maxMessageAge := maxMessageAge this |}.

(** [byte.toString(16).padStart(2, '0')]. *)
Definition hexDigit (n : N) : ascii :=
  match n with
  | 0 => "0" | 1 => "1" | 2 => "2" | 3 => "3" | 4 => "4" | 5 => "5" | 6 => "6"
  | 7 => "7" | 8 => "8" | 9 => "9" | 10 => "a" | 11 => "b" | 12 => "c"
  | 13 => "d" | 14 => "e" | _ => "f"
  end%N%char.

Definition hexByte (b : byte) : string :=
  let n := Byte.to_N b in
  String (hexDigit (n / 16)) (String (hexDigit (n mod 16)) EmptyString).

Fixpoint hexString (bs : list byte) : string :=
  match bs with
  | [] => EmptyString
  | b :: rest => hexByte b +:+ hexString rest
  end.

(** The object literals that are serialized and signed. *)
Definition messageWithoutSignature (message : AuthenticatedMessage) : JsVal :=
  JsObj [ ("requestId", JsStr (requestId message));
          ("action", of_option_string (action message));
          ("chain", of_option_string (chain message));
          ("params", params message);
          ("timestamp", JsNum (timestamp message));
          ("nonce", JsStr (nonce message)) ].

Definition responseData (response : AdapterResponse) (timestamp : Z) : JsVal :=
  JsObj [ ("requestId", JsStr (resp_requestId response));
          ("success", JsBool (resp_success response));
          ("data", resp_data response);
          ("error", resp_error response);
          ("timestamp", JsNum timestamp) ].

(** [{...responseData, signature}]. *)
Definition signedResponse (response : AdapterResponse) (timestamp : Z)
    (signature : string) : SecureResponse :=
  {| sr_requestId := resp_requestId response;
     sr_success := resp_success response;
     sr_data := resp_data response;
     sr_error := resp_error response;
     sr_timestamp := timestamp;
     sr_signature := signature |}.

(** State and exceptions: a computation runs on a state [S] and returns or
    throws; the state it leaves behind is kept in both cases. *)
Definition Op (S A : Type) : Type := S → Completion A * S.

Definition ret {S A} (a : A) : Op S A := fun s => (Normal a, s).
Definition throw {S A} (e : JsVal) : Op S A := fun s => (Throw e, s).
Definition bind {S A B} (m : Op S A) (k : A → Op S B) : Op S B :=
  fun s => match m s with
           | (Normal a, s') => k a s'
           | (Throw e, s') => (Throw e, s')
           end.
Definition tryCatch {S A} (m : Op S A) (handler : JsVal → Op S A) : Op S A :=
  fun s => match m s with
           | (Normal a, s') => (Normal a, s')
           | (Throw e, s') => handler e s'
           end.
Definition gets {S A} (f : S → A) : Op S A := fun s => (Normal (f s), s).
Definition modify {S} (f : S → S) : Op S unit := fun s => (Normal tt, f s).
Definition liftC {S A} (c : Completion A) : Op S A := fun s => (c, s).

Notation "'do' x <- m ; k" := (bind m (fun x => k))
  (at level 10, x name, m at level 100, k at level 200).
Notation "'do_' m ; k" := (bind m (fun _ => k))
  (at level 10, m at level 100, k at level 200).

(** ** The platform

    What the adapter takes from the browser.  *)
Class Platform : Type := {
  (** [JSON.stringify]; it throws on a [BigInt] or a cycle. *)
  JSON_stringify : JsVal → Completion string;
  (** [crypto.subtle.importKey('raw', keyData, {name: 'HMAC', hash: 'SHA-256'},
      false, ['sign', 'verify'])] followed by [crypto.subtle.sign('HMAC', key,
      messageData)]; it throws where [crypto.subtle] is missing. *)
  subtle_HMAC_SHA256 : list byte → list byte → Completion (list byte);
  (** [parseInt(balance, 16) / Math.pow(10, 18)]. *)
  etherOfWeiHex : JsVal → JsVal
}.

Section Adapter.

Context {platform : Platform}.

Definition computeHMAC (message secret : string) : Completion string :=
  let keyData := list_byte_of_string secret in
  let messageData := list_byte_of_string message in
  match subtle_HMAC_SHA256 keyData messageData with
  | Normal signature => Normal (hexString signature)
  | Throw e => Throw e
  end.

(** The body of the [try] of [verifyIncomingMessage]; [now] is what
    [Date.now()] reads. *)
Definition verifyIncomingMessage_try (now : Z) (message : AuthenticatedMessage)
  : Op MessageAuthenticator bool :=
  do secret <- gets sharedSecret;
  if negb (truthy_string secret) then ret false
  else
    do maxAge <- gets maxMessageAge;
    let messageAge := Z.abs (now - timestamp message) in
    if messageAge >? maxAge then ret false
    else
      do used <- gets usedNonces;
      if bool_decide (nonce message ∈ used) then ret false
      else
        do messageString <- liftC (JSON_stringify (messageWithoutSignature message));
        do expectedSignature <- liftC (computeHMAC messageString secret);
        if negb (String.eqb expectedSignature (signature message)) then ret false
        else
          do_ modify (addNonce (nonce message));
          ret true.

Definition verifyIncomingMessage (now : Z) (message : AuthenticatedMessage)
  : Op MessageAuthenticator bool :=
  tryCatch (verifyIncomingMessage_try now message) (fun error => ret false).

Definition signResponse (now : Z) (response : AdapterResponse)
  : Op MessageAuthenticator SecureResponse :=
  do secret <- gets sharedSecret;
  if negb (truthy_string secret)
  then throw (Error "🔒 No shared secret configured for signing response")
  else
    let timestamp := now in
    do messageString <- liftC (JSON_stringify (responseData response timestamp));
    do signature <- liftC (computeHMAC messageString secret);
    ret (signedResponse response timestamp signature).

(** *** What arrives on the channel *)

(** [event.data] when it is not an object. *)
Inductive Primitive : Type :=
| PUndefined
| PNull
| PBool (b : bool)
| PNum (n : Z)
| PStr (s : string).

Definition js_of_primitive (p : Primitive) : JsVal :=
  match p with
  | PUndefined => JsUndefined
  | PNull => JsNull
  | PBool b => JsBool b
  | PNum n => JsNum n
  | PStr s => JsStr s
  end.

Definition typeof_primitive (p : Primitive) : string :=
  match p with
  | PUndefined => "undefined"
  | PNull => "object"
  | PBool _ => "boolean"
  | PNum _ => "number"
  | PStr _ => "string"
  end.

(** A message object.  A property is there or not; when it is there it has
    the type the interfaces and the exchange message give it, which is what
    the cast to [AuthenticatedMessage] relies on. *)
Record InboundMessage : Type := {
  in_requestId : option string;
  in_action : option string;
  in_widgetSecret : option string;
  in_chain : option string;
  in_params : JsVal;
  in_timestamp : option Z;
  in_nonce : option string;
  in_signature : option string
}.

Inductive MessageData : Type :=
| NotObject (p : Primitive)
| Object (m : InboundMessage).

Definition of_option_Z (o : option Z) : JsVal :=
  match o with Some n => JsNum n | None => JsUndefined end.

(** [message as AuthenticatedMessage].  A property that is left out reads as
    the falsy value of its type; [handleSecureMessage] and
    [validateIncomingMessage] have turned the message away before any such
    field is used. *)
Definition asAuthenticatedMessage (m : InboundMessage) : AuthenticatedMessage :=
  {| requestId := default EmptyString (in_requestId m);
     action := in_action m;
     chain := in_chain m;
     params := in_params m;
     timestamp := default 0 (in_timestamp m);
     nonce := default EmptyString (in_nonce m);
     signature := default EmptyString (in_signature m) |}.

(** *** What the adapter does to the world *)

Inductive ChannelMessage : Type :=
| Unsigned (response : AdapterResponse)
| Signed (response : SecureResponse).

Inductive Event : Type :=
| PostMessage (m : ChannelMessage)               (* channel.port1.postMessage(m) *)
| SharedSecretReceived (secret : string)         (* onSharedSecretReceived(secret) *)
| ProcessWalletRequest (req : AdapterRequest)    (* processWalletRequest(req) entered *)
| ProviderRequest (args : JsVal)                 (* ethereum.request(args) *)
| DispatchEvent (type : string) (detail : JsVal) (* window.dispatchEvent(new CustomEvent(type, {detail})) *).

Record Window : Type := {
  ethereum : option (JsVal → Completion JsVal);
  walletDisconnected : bool
}.

(** The module-level singleton [dappAuthenticator], the [window], and what
    has been done so far, oldest first. *)
Record Env : Type := {
  dappAuthenticator : MessageAuthenticator;
  window : Window;
  trace : list Event
}.

Definition liftAuth {A} (m : Op MessageAuthenticator A) : Op Env A :=
  fun env =>
    let (c, auth) := m (dappAuthenticator env) in
    (c, {| dappAuthenticator := auth; window := window env; trace := trace env |}).

Definition emit (e : Event) : Op Env unit :=
  modify (fun env => {| dappAuthenticator := dappAuthenticator env;
                        window := window env;
                        trace := trace env ++ [e] |}).

Definition setWalletDisconnected (b : bool) : Op Env unit :=
  modify (fun env => {| dappAuthenticator := dappAuthenticator env;
                        window := {| ethereum := ethereum (window env);
                                     walletDisconnected := b |};
                        trace := trace env |}).

Definition postMessage (m : ChannelMessage) : Op Env unit := emit (PostMessage m).

Definition dispatchEvent (type : string) (detail : JsVal) : Op Env unit :=
  emit (DispatchEvent type detail).

(** *** The wallet provider *)

Definition getEthereumProvider : Op Env (JsVal → Completion JsVal) :=
  do w <- gets window;
  match ethereum w with
  | Some provider => ret provider
  | None => throw (Error "MetaMask not installed. Please install MetaMask to use this feature.")
  end.

Definition request (provider : JsVal → Completion JsVal) (args : JsVal) : Op Env JsVal :=
  do_ emit (ProviderRequest args);
  liftC (provider args).

Definition method (name : string) : JsVal := JsObj [("method", JsStr name)].
Definition method_params (name : string) (ps : list JsVal) : JsVal :=
  JsObj [("method", JsStr name); ("params", JsArr ps)].

Definition is_action (req : AdapterRequest) (name : string) : bool :=
  match req_action req with
  | Some a => String.eqb a name
  | None => false
  end.

(** [accounts.length === 0]. *)
Definition lengthIsZero (v : JsVal) : Completion bool :=
  match getProp v "length" with
  | Normal (JsNum 0) => Normal true
  | Normal _ => Normal false
  | Throw e => Throw e
  end.

(** [switchError.code === 4902]. *)
Definition codeIs4902 (v : JsVal) : Completion bool :=
  match getProp v "code" with
  | Normal (JsNum 4902) => Normal true
  | Normal _ => Normal false
  | Throw e => Throw e
  end.

(** The [switch (req.action)] of [processWalletRequest], with the provider
    it runs on; the value is [result]. *)
Definition walletAction (req : AdapterRequest) : Op Env JsVal :=
  do ethereum <- getEthereumProvider;
  if is_action req "CONNECT_WALLET" then
    do_ setWalletDisconnected false;
    do result <- request ethereum (method "eth_requestAccounts");
    do_ dispatchEvent "wallet-connect" (JsObj [("accounts", result)]);
    ret result
  else if is_action req "DISCONNECT_WALLET" then
    do_ tryCatch
          (do_ request ethereum
                 (method_params "eth_requestAccounts" [JsObj [("eth_accounts", JsObj [])]]);
           ret tt)
          (fun error => ret tt);
    do_ setWalletDisconnected true;
    do_ dispatchEvent "wallet-disconnect" JsNull;
    ret (JsObj [("status", JsStr "disconnected")])
  else if is_action req "GET_ACCOUNTS" then
    do w <- gets window;
    if walletDisconnected w then ret (JsArr [])
    else
      do result <- request ethereum (method "eth_accounts");
      do_ dispatchEvent "wallet-connect" (JsObj [("accounts", result)]);
      ret result
  else if is_action req "GET_CHAIN_ID" then
    request ethereum (method "eth_chainId")
  else if is_action req "GET_BALANCE" then
    do accounts <- request ethereum (method "eth_accounts");
    do empty <- liftC (lengthIsZero accounts);
    if empty then throw (Error "No accounts connected")
    else
      do account <- liftC (getFirst accounts);
      do balance <- request ethereum
                      (method_params "eth_getBalance" [account; JsStr "latest"]);
      ret (etherOfWeiHex balance)
  else if is_action req "SIGN_MESSAGE" then
    if negb (truthy (getPropOpt (req_params req) "message"))
    then throw (Error "Message is required for signing")
    else
      do accountsForSigning <- request ethereum (method "eth_accounts");
      do empty <- liftC (lengthIsZero accountsForSigning);
      if empty then throw (Error "No accounts connected")
      else
        do message <- liftC (getProp (req_params req) "message");
        do account <- liftC (getFirst accountsForSigning);
        request ethereum (method_params "personal_sign" [message; account])
  else if is_action req "SIGN_TRANSACTION" then
    if negb (truthy (getPropOpt (req_params req) "transaction"))
    then throw (Error "Transaction is required for signing")
    else
      do transaction <- liftC (getProp (req_params req) "transaction");
      request ethereum (method_params "eth_signTransaction" [transaction])
  else if is_action req "BROADCAST_TRANSACTION" then
    if negb (truthy (getPropOpt (req_params req) "transaction"))
    then throw (Error "Transaction is required for broadcasting")
    else
      do transaction <- liftC (getProp (req_params req) "transaction");
      request ethereum (method_params "eth_sendTransaction" [transaction])
  else if is_action req "SWITCH_NETWORK" then
    if negb (truthy (getPropOpt (req_params req) "chainId"))
    then throw (Error "Chain ID is required for network switch")
    else
      do chainId <- liftC (getProp (req_params req) "chainId");
      tryCatch
        (do_ request ethereum
               (method_params "wallet_switchEthereumChain" [JsObj [("chainId", chainId)]]);
         do_ dispatchEvent "wallet-network-changed" (JsObj [("chainId", chainId)]);
         ret (JsObj [("chainId", chainId); ("status", JsStr "switched")]))
        (fun switchError =>
           do unknownChain <- liftC (codeIs4902 switchError);
           if unknownChain then
             do networkConfig <- liftC (getProp (req_params req) "networkConfig");
             if truthy networkConfig then
               do_ request ethereum (method_params "wallet_addEthereumChain" [networkConfig]);
               do_ dispatchEvent "wallet-network-changed" (JsObj [("chainId", chainId)]);
               ret (JsObj [("chainId", chainId); ("status", JsStr "added_and_switched")])
             else throw (Error "Network not found and no network config provided")
           else throw switchError)
  else if is_action req "NETWORK_SWITCHED_EVENT" then
    do_ dispatchEvent "NETWORK_SWITCHED_EVENT"
          (if truthy (req_params req) then req_params req else JsObj []);
    ret (JsObj [("status", JsStr "event_dispatched")])
  else
    throw (Error ("Unsupported action: " +:+ default "undefined" (req_action req))).

Definition processWalletRequest (req : AdapterRequest) : Op Env AdapterResponse :=
  do_ emit (ProcessWalletRequest req);
  tryCatch
    (do result <- walletAction req;
     ret {| resp_requestId := req_requestId req;
            resp_success := true;
            resp_data := result;
            resp_error := JsUndefined |})
    (fun err =>
       do message <- liftC (getProp err "message");
       ret {| resp_requestId := req_requestId req;
              resp_success := false;
              resp_data := JsNull;
              resp_error := if truthy message then message
                            else JsStr "Wallet operation failed" |}).

(** *** The closures of [createWalletAdapter] *)

Definition EXCHANGE_SHARED_SECRET : string := "EXCHANGE_SHARED_SECRET".

(** [rawMessage.action === 'EXCHANGE_SHARED_SECRET' && rawMessage.widgetSecret]. *)
Definition isSecretExchange (m : InboundMessage) : bool :=
  match in_action m with
  | Some a => String.eqb a EXCHANGE_SHARED_SECRET
  | None => false
  end && truthy_option_string (in_widgetSecret m).

(** [!rawMessage || typeof rawMessage !== 'object' || !rawMessage.requestId]. *)
Definition invalidFormat (rawMessage : MessageData) : bool :=
  match rawMessage with
  | NotObject p =>
      negb (truthy (js_of_primitive p))
      || negb (String.eqb (typeof_primitive p) "object")
  | Object m => negb (truthy_option_string (in_requestId m))
  end.

Definition ackResponse (requestId : string) : AdapterResponse :=
  {| resp_requestId := requestId;
     resp_success := true;
     resp_data := JsObj [("message", JsStr "Shared secret received")];
     resp_error := JsUndefined |}.

Definition SECURITY_ERROR : string :=
  "SECURITY_ERROR: Shared secret not established. Widget must initialize secure communication first via EXCHANGE_SHARED_SECRET action.".

Definition errorResponse (requestId : string) : AdapterResponse :=
  {| resp_requestId := requestId;
     resp_success := false;
     resp_data := JsUndefined;
     resp_error := JsStr SECURITY_ERROR |}.

(** The signature of a signed response is the HMAC, under [secret], of the
    serialization of its other fields. *)
Definition correctlySignedResponse (secret : string) (sr : SecureResponse) : Prop :=
  ∃ messageString,
    JSON_stringify
      (responseData {| resp_requestId := sr_requestId sr;
                       resp_success := sr_success sr;
                       resp_data := sr_data sr;
                       resp_error := sr_error sr |} (sr_timestamp sr))
    = Normal messageString
    ∧ computeHMAC messageString secret = Normal (sr_signature sr).

(** A field of a response is present when it holds a value, which is
    anything but [undefined]: [null] is a value, the peer receives it and
    [JSON.stringify] writes it. *)
Definition present (v : JsVal) : Prop := v ≠ JsUndefined.

(** The specification of a signed response, in its words: data is present if
    and only if success is true, error if and only if it is false. *)
Definition presentIffSuccess (sr : SecureResponse) : Prop :=
  (present (sr_data sr) ↔ sr_success sr = true)
  ∧ (present (sr_error sr) ↔ sr_success sr = false).

(** The check of [validateIncomingMessage]:
    [!message.timestamp || !message.nonce || !message.signature]. *)
Definition missingAuthenticationFields (message : InboundMessage) : bool :=
  negb (truthy (of_option_Z (in_timestamp message)))
  || negb (truthy_option_string (in_nonce message))
  || negb (truthy_option_string (in_signature message)).

Definition validateIncomingMessage (now : Z) (message : InboundMessage)
  : Op Env bool :=
  tryCatch
    (if missingAuthenticationFields message
     then ret false
     else
       do isValid <- liftAuth (verifyIncomingMessage now (asAuthenticatedMessage message));
       ret isValid)
    (fun error => ret false).

Definition stripAuthenticationFields (message : AuthenticatedMessage) : AdapterRequest :=
  {| req_requestId := requestId message;
     req_action := action message;
     req_chain := chain message;
     req_params := params message |}.

Definition createSecureResponse (now : Z) (response : AdapterResponse)
  : Op Env SecureResponse :=
  tryCatch (liftAuth (signResponse now response)) (fun error => throw error).

(** [handleSecureMessage] from the point where the awaited
    [processWalletRequest] has settled with [response]: other tasks (the
    host's [setSharedSecret], another message) may have run while the wallet
    was asked.  [now] is what [Date.now()] reads in [signResponse]. *)
Definition handleSecureMessage_resume (now : Z) (response : AdapterResponse)
  : Op Env unit :=
  do finalResponse <- createSecureResponse now response;
  postMessage (Signed finalResponse).

(** [nowVerify] and [nowSign] are the two readings of [Date.now()] that
    decide anything: the one in [verifyIncomingMessage] and the one in
    [signResponse]. *)
Definition handleSecureMessage (options : AdapterOptions) (nowVerify nowSign : Z)
    (rawMessage : MessageData) : Op Env unit :=
  if invalidFormat rawMessage then ret tt
  else
    match rawMessage with
    | NotObject _ => ret tt
    | Object m =>
        let requestId := default EmptyString (in_requestId m) in
        if isSecretExchange m then
          let widgetSecret := default EmptyString (in_widgetSecret m) in
          do_ liftAuth (modify (setSharedSecret widgetSecret));
          do_ match opt_onSharedSecretReceived options with
              | Some onSharedSecretReceived =>
                  do_ emit (SharedSecretReceived widgetSecret);
                  liftC (onSharedSecretReceived widgetSecret)
              | None => ret tt
              end;
          postMessage (Unsigned (ackResponse requestId))
        else
          do secret <- liftAuth (gets getSharedSecret);
          if negb (truthy_string secret) then
            postMessage (Unsigned (errorResponse requestId))
          else
            do authenticated <- validateIncomingMessage nowVerify m;
            if negb authenticated then ret tt
            else
              let validatedMessage :=
                stripAuthenticationFields (asAuthenticatedMessage m) in
              do response <- processWalletRequest validatedMessage;
              handleSecureMessage_resume nowSign response
    end.

(** [channel.port1.onmessage]. *)
Definition onmessage (options : AdapterOptions) (nowVerify nowSign : Z)
    (data : MessageData) : Op Env unit :=
  tryCatch (handleSecureMessage options nowVerify nowSign data)
           (fun error => ret tt).

(** The part of [createWalletAdapter] that runs before the channel is
    opened. *)
Definition createWalletAdapter (options : AdapterOptions) : Op Env unit :=
  let maxMessageAge := default 300000 (opt_maxMessageAge options) in
  do_ (if negb (maxMessageAge =? 300000)
       then liftAuth (modify (setMaxMessageAge maxMessageAge))
       else ret tt);
  if truthy_option_string (opt_sharedSecret options)
  then liftAuth (modify (setSharedSecret (default EmptyString (opt_sharedSecret options))))
  else ret tt.

(** The control operations of the object [createWalletAdapter] returns. *)
Definition adapter_setSharedSecret (secret : string) : Op Env unit :=
  liftAuth (modify (setSharedSecret secret)).
Definition adapter_cleanupNonces : Op Env unit :=
  liftAuth (modify cleanupOldNonces).

(** *** Notions the properties are stated with *)

(** The signature of [message] is the HMAC, under [secret], of the
    serialization of its other fields. *)
Definition correctlySigned (secret : string) (message : AuthenticatedMessage) : Prop :=
  ∃ messageString,
    JSON_stringify (messageWithoutSignature message) = Normal messageString
    ∧ computeHMAC messageString secret = Normal (signature message).

(** The authenticator of a running adapter, with the calls of
    [verifyIncomingMessage] that are suspended at
    [await this.computeHMAC(messageString, this.sharedSecret)] and will go on
    to [this.usedNonces.add(message.nonce)]: they have passed the checks of
    the secret, the age and the nonce, and the MAC they await, under the
    secret they read before the [await], is the signature of the message.
    [awaited] holds their nonces. *)
Record Running : Type := {
  authenticator : MessageAuthenticator;
  awaited : list string
}.

(** What can happen to the authenticator of a running adapter.  A call of
    [verifyIncomingMessage] settles before anything else runs
    ([step_verify]), or it is suspended at the [await] ([step_verify_awaits])
    and resumes after other calls ([step_verify_resumes]), adding its nonce
    to the ledger as it is then: [setSharedSecret] and [cleanupOldNonces]
    empty the one [Set] the suspended call holds.  The host uses the control
    operations, which do not wait, at any time. *)
Inductive AuthStep : Running → Running → Prop :=
| step_verify now message this b this' calls :
    verifyIncomingMessage now message this = (Normal b, this') →
    AuthStep {| authenticator := this; awaited := calls |}
             {| authenticator := this'; awaited := calls |}
| step_verify_awaits now message this calls :
    truthy_string (sharedSecret this) = true →
    Z.abs (now - timestamp message) <= maxMessageAge this →
    nonce message ∉ usedNonces this →
    correctlySigned (sharedSecret this) message →
    AuthStep {| authenticator := this; awaited := calls |}
             {| authenticator := this; awaited := nonce message :: calls |}
| step_verify_resumes n this before after :
    AuthStep {| authenticator := this; awaited := before ++ n :: after |}
             {| authenticator := addNonce n this; awaited := before ++ after |}
| step_setSharedSecret secret this calls :
    AuthStep {| authenticator := this; awaited := calls |}
             {| authenticator := setSharedSecret secret this; awaited := calls |}
| step_setMaxMessageAge ageInMs this calls :
    AuthStep {| authenticator := this; awaited := calls |}
             {| authenticator := setMaxMessageAge ageInMs this; awaited := calls |}
| step_cleanupOldNonces this calls :
    AuthStep {| authenticator := this; awaited := calls |}
             {| authenticator := cleanupOldNonces this; awaited := calls |}.

(** The module starts with a new authenticator and no call. *)
Definition started : Running :=
  {| authenticator := new_MessageAuthenticator; awaited := [] |}.

Definition reachable (this : MessageAuthenticator) : Prop :=
  ∃ calls, rtc AuthStep started {| authenticator := this; awaited := calls |}.

(** A step after which no call of [verifyIncomingMessage] is suspended. *)
Definition settledStep (c c' : Running) : Prop :=
  AuthStep c c' ∧ awaited c' = [].

(** A computation that does not touch [dappAuthenticator]. *)
Definition keepsAuthenticator {A} (m : Op Env A) : Prop :=
  ∀ env, dappAuthenticator (snd (m env)) = dappAuthenticator env.

End Adapter.

(** ** A reference platform

    HMAC (RFC 2104) over SHA-256 (FIPS 180-4) for [crypto.subtle], and
    [JSON.stringify] on the values of [JsVal].  The theorems below do not
    depend on it; it runs the model on concrete messages. *)

Module Reference.

(** *** SHA-256 on 32-bit words held in [Z] *)

Definition w32 (x : Z) : Z := x mod 2 ^ 32.
Definition add32 (x y : Z) : Z := w32 (x + y).
Definition rotr (n x : Z) : Z := Z.lor (Z.shiftr x n) (w32 (Z.shiftl x (32 - n))).
Definition Ch (x y z : Z) : Z := Z.lxor (Z.land x y) (Z.land (w32 (Z.lnot x)) z).
Definition Maj (x y z : Z) : Z :=
  Z.lxor (Z.lxor (Z.land x y) (Z.land x z)) (Z.land y z).
Definition bigSigma0 (x : Z) : Z := Z.lxor (Z.lxor (rotr 2 x) (rotr 13 x)) (rotr 22 x).
Definition bigSigma1 (x : Z) : Z := Z.lxor (Z.lxor (rotr 6 x) (rotr 11 x)) (rotr 25 x).
Definition smallSigma0 (x : Z) : Z :=
  Z.lxor (Z.lxor (rotr 7 x) (rotr 18 x)) (Z.shiftr x 3).
Definition smallSigma1 (x : Z) : Z :=
  Z.lxor (Z.lxor (rotr 17 x) (rotr 19 x)) (Z.shiftr x 10).

(** The first 64 primes. *)
Definition primes : list Z :=
  [ 2; 3; 5; 7; 11; 13; 17; 19; 23; 29; 31; 37; 41; 43; 47; 53; 59; 61; 67; 71;
    73; 79; 83; 89; 97; 101; 103; 107; 109; 113; 127; 131; 137; 139; 149; 151;
    157; 163; 167; 173; 179; 181; 191; 193; 197; 199; 211; 223; 227; 229; 233;
    239; 241; 251; 257; 263; 269; 271; 277; 281; 283; 293; 307; 311 ].

(** The largest [r] below 2^[bits] with [r]^3 at most [n], above [r0]. *)
Fixpoint cubeRoot (bits : nat) (n r0 : Z) : Z :=
  match bits with
  | O => r0
  | S bits' =>
      let r1 := r0 + 2 ^ Z.of_nat bits' in
      cubeRoot bits' n (if r1 * r1 * r1 <=? n then r1 else r0)
  end.

(** The first 32 bits of the fractional part of the cube root of each of the
    64 primes. *)
Definition roundConstants : list Z :=
  Eval vm_compute in map (fun p => w32 (cubeRoot 40 (p * 2 ^ 96) 0)) primes.

(** The first 32 bits of the fractional part of the square root of each of
    the first 8 primes. *)
Definition initialHash : list Z :=
  Eval vm_compute in map (fun p => w32 (Z.sqrt (p * 2 ^ 64))) (firstn 8 primes).

(** Big-endian words of a byte sequence whose length is a multiple of 4. *)
Fixpoint wordsOfBytes (bs : list Z) : list Z :=
  match bs with
  | b0 :: b1 :: b2 :: b3 :: rest =>
      (((b0 * 256 + b1) * 256 + b2) * 256 + b3) :: wordsOfBytes rest
  | _ => []
  end.

Definition bytesOfWord (x : Z) : list Z :=
  [ x / 2 ^ 24 mod 256; x / 2 ^ 16 mod 256; x / 2 ^ 8 mod 256; x mod 256 ].

Definition bytesOfLength (bits : Z) : list Z :=
  bytesOfWord (bits / 2 ^ 32 mod 2 ^ 32) ++ bytesOfWord (bits mod 2 ^ 32).

(** The message, the bit 1, zero bits up to 56 modulo 64 bytes, and the
    length in bits on 8 bytes. *)
Definition pad (msg : list Z) : list Z :=
  let len := Z.of_nat (length msg) in
  let zeros := Z.to_nat ((55 - len) mod 64) in
  msg ++ [128] ++ repeat 0 zeros ++ bytesOfLength (8 * len).

(** The message schedule, newest word first: [rev] holds W(t-1), W(t-2), ... *)
Fixpoint extendSchedule (n : nat) (rev : list Z) : list Z :=
  match n with
  | O => rev
  | S n' =>
      let wt := add32 (add32 (smallSigma1 (nth 1 rev 0)) (nth 6 rev 0))
                      (add32 (smallSigma0 (nth 14 rev 0)) (nth 15 rev 0)) in
      extendSchedule n' (wt :: rev)
  end.

Definition schedule (block : list Z) : list Z :=
  List.rev (extendSchedule 48 (List.rev block)).

Definition round (v : list Z) (kw : Z * Z) : list Z :=
  match v with
  | [a; b; c; d; e; f; g; h] =>
      let t1 := add32 (add32 (add32 h (bigSigma1 e)) (Ch e f g))
                      (add32 (fst kw) (snd kw)) in
      let t2 := add32 (bigSigma0 a) (Maj a b c) in
      [add32 t1 t2; a; b; c; add32 d t1; e; f; g]
  | _ => v
  end.

Definition compress (h : list Z) (block : list Z) : list Z :=
  let v := fold_left round (combine roundConstants (schedule block)) h in
  map (fun p => add32 (fst p) (snd p)) (combine h v).

Fixpoint blocks (fuel : nat) (ws : list Z) : list (list Z) :=
  match fuel, ws with
  | S fuel', _ :: _ => firstn 16 ws :: blocks fuel' (skipn 16 ws)
  | _, _ => []
  end.

Definition sha256 (msg : list Z) : list Z :=
  let ws := wordsOfBytes (pad msg) in
  concat (map bytesOfWord (fold_left compress (blocks (length ws) ws) initialHash)).

(** *** HMAC *)

Definition blockKey (key : list Z) : list Z :=
  let k := if (64 <? length key)%nat then sha256 key else key in
  k ++ repeat 0 (64 - length k)%nat.

Definition hmac (key msg : list Z) : list Z :=
  let k := blockKey key in
  sha256 (map (Z.lxor 0x5c) k ++ sha256 (map (Z.lxor 0x36) k ++ msg)).

Definition Z_of_byte (b : byte) : Z := Z.of_N (Byte.to_N b).
Definition byte_of_Z (z : Z) : byte :=
  match Byte.of_N (Z.to_N (z mod 256)) with
  | Some b => b
  | None => x00
  end.

Definition subtle_HMAC_SHA256 (keyData messageData : list byte)
  : Completion (list byte) :=
  Normal (map byte_of_Z (hmac (map Z_of_byte keyData) (map Z_of_byte messageData))).

(** *** JSON.stringify *)

Fixpoint digits (fuel : nat) (n : Z) (acc : string) : string :=
  match fuel with
  | O => acc
  | S fuel' =>
      let acc' := String (ascii_of_nat (48 + Z.to_nat (n mod 10))) acc in
      if n <? 10 then acc' else digits fuel' (n / 10) acc'
  end.

(** Integers of magnitude below 10^21, which JavaScript writes in full. *)
Definition numberToString (n : Z) : string :=
  if n <? 0 then "-" +:+ digits 22 (- n) EmptyString else digits 22 n EmptyString.

Definition quoteChar (c : ascii) : string :=
  let n := N_of_ascii c in
  if (n =? 34)%N then String "\" (String c EmptyString)
  else if (n =? 92)%N then "\\"
  else if (n =? 8)%N then "\b"
  else if (n =? 9)%N then "\t"
  else if (n =? 10)%N then "\n"
  else if (n =? 12)%N then "\f"
  else if (n =? 13)%N then "\r"
  else if (n <? 32)%N
       then "\u00" +:+ String (hexDigit (n / 16)) (String (hexDigit (n mod 16)) EmptyString)
       else String c EmptyString.

Fixpoint quoteChars (s : string) : string :=
  match s with
  | EmptyString => EmptyString
  | String c rest => quoteChar c +:+ quoteChars rest
  end.

Definition quote (s : string) : string :=
  String (ascii_of_nat 34) (quoteChars s) +:+ String (ascii_of_nat 34) EmptyString.

Definition joinComma (parts : list string) : string :=
  match parts with
  | [] => EmptyString
  | p :: rest => fold_left (fun acc q => acc +:+ "," +:+ q) rest p
  end.

(** [None] is [undefined]: the value is left out of an object and written
    [null] in an array. *)
Fixpoint serialize (v : JsVal) : option string :=
  match v with
  | JsUndefined => None
  | JsNull => Some "null"
  | JsBool b => Some (if b then "true" else "false")
  | JsNum n => Some (numberToString n)
  | JsStr s => Some (quote s)
  | JsArr items =>
      let parts :=
        (fix go (l : list JsVal) : list string :=
           match l with
           | [] => []
           | x :: rest => default "null" (serialize x) :: go rest
           end) items in
      Some ("[" +:+ joinComma parts +:+ "]")
  | JsObj props =>
      let parts :=
        (fix go (l : list (string * JsVal)) : list string :=
           match l with
           | [] => []
           | (k, x) :: rest =>
               match serialize x with
               | Some sx => (quote k +:+ ":" +:+ sx) :: go rest
               | None => go rest
               end
           end) props in
      Some ("{" +:+ joinComma parts +:+ "}")
  end.

Definition JSON_stringify (v : JsVal) : Completion string :=
  Normal (default "undefined" (serialize v)).

End Reference.

(** The reference platform; [balance] is the conversion to ether. *)
Definition referencePlatform (balance : JsVal → JsVal) : Platform :=
  {| JSON_stringify := Reference.JSON_stringify;
     subtle_HMAC_SHA256 := Reference.subtle_HMAC_SHA256;
     etherOfWeiHex := balance |}.

(** ** Scenarios

    Concrete messages, signed with the reference platform under the secret
    ["abc"], and the adapter they are sent to. *)

Module Scenario.

Definition abc : string := "abc".

(** ["abc\u0000"]: the secret ["abc"] followed by one NUL character. *)
Definition abc_nul : string := abc +:+ String (ascii_of_nat 0) EmptyString.

Definition t0 : Z := 1700000000000.

Definition getChainId : InboundMessage :=
  {| in_requestId := Some "1";
     in_action := Some "GET_CHAIN_ID";
     in_widgetSecret := None;
     in_chain := Some "ethereum";
     in_params := JsUndefined;
     in_timestamp := Some t0;
     in_nonce := Some "n1";
     in_signature :=
       Some "49e418740ddc8990401e6c10c02e8b0a2c2b662ac7285c4dcbe62887874c3074" |}.

Definition unsupported : InboundMessage :=
  {| in_requestId := Some "2";
     in_action := Some "FOO";
     in_widgetSecret := None;
     in_chain := Some "ethereum";
     in_params := JsUndefined;
     in_timestamp := Some t0;
     in_nonce := Some "n2";
     in_signature :=
       Some "071c0a2b7cc5f2761980a40c7cbab9900b7c8161029159044bea85362175fca7" |}.

(** [{requestId, action: 'EXCHANGE_SHARED_SECRET', widgetSecret}]. *)
Definition exchange (requestId : string) (widgetSecret : option string) : InboundMessage :=
  {| in_requestId := Some requestId;
     in_action := Some "EXCHANGE_SHARED_SECRET";
     in_widgetSecret := widgetSecret;
     in_chain := None;
     in_params := JsUndefined;
     in_timestamp := None;
     in_nonce := None;
     in_signature := None |}.

Definition options : AdapterOptions :=
  {| opt_sharedSecret := None;
     opt_onSharedSecretReceived := Some (fun secret => Normal tt);
     opt_maxMessageAge := None;
     opt_debugMode := false |}.

(** The same, with a callback that throws. *)
Definition throwingOptions : AdapterOptions :=
  {| opt_sharedSecret := None;
     opt_onSharedSecretReceived := Some (fun secret => Throw (Error "callback failed"));
     opt_maxMessageAge := None;
     opt_debugMode := false |}.

(** A provider on chain 1 with one account. *)
Definition provider (args : JsVal) : Completion JsVal :=
  match getPropOpt args "method" with
  | JsStr "eth_chainId" => Normal (JsStr "0x1")
  | JsStr "eth_accounts" | JsStr "eth_requestAccounts" =>
      Normal (JsArr [JsStr "0x00000000000000000000000000000000000000aa"])
  | _ => Throw (JsObj [("code", JsNum 4200); ("message", JsStr "Unsupported method")])
  end.

(** A provider that resolves every request with [undefined]. *)
Definition silentProvider (args : JsVal) : Completion JsVal := Normal JsUndefined.

(** The page right after the module is loaded. *)
Definition page (ethereum : option (JsVal → Completion JsVal)) : Env :=
  {| dappAuthenticator := new_MessageAuthenticator;
     window := {| ethereum := ethereum; walletDisconnected := false |};
     trace := [] |}.

(** The scenarios never ask for a balance. *)
Definition noBalance (balance : JsVal) : JsVal := JsNum 0.

Definition browser : Platform := referencePlatform noBalance.

Definition verify (now : Z) (message : AuthenticatedMessage)
  : Op MessageAuthenticator bool :=
  verifyIncomingMessage (platform := browser) now message.

(** One message handled at time [now]. *)
Definition receive (now : Z) (data : MessageData) (env : Env) : Env :=
  snd (onmessage (platform := browser) options now now data env).

Definition walletPage : Env := page (Some provider).

(** The page after the widget has sent the secret ["abc"]. *)
Definition keyedPage : Env := receive t0 (Object (exchange "0" (Some abc))) walletPage.

(** The secret ["abc"] has been installed. *)
Definition keyed : MessageAuthenticator := setSharedSecret abc new_MessageAuthenticator.

(** A request whose nonce is made of [i] letters x, not signed yet. *)
Definition numbered (i : nat) : AuthenticatedMessage :=
  {| requestId := "r";
     action := Some "GET_CHAIN_ID";
     chain := Some "ethereum";
     params := JsUndefined;
     timestamp := t0;
     nonce := string_of_list_ascii (repeat "x"%char i);
     signature := EmptyString |}.

Definition signed (secret : string) (m : AuthenticatedMessage) : AuthenticatedMessage :=
  {| requestId := requestId m;
     action := action m;
     chain := chain m;
     params := params m;
     timestamp := timestamp m;
     nonce := nonce m;
     signature :=
       match Reference.JSON_stringify (messageWithoutSignature m) with
       | Normal messageString =>
           match computeHMAC (platform := browser) messageString secret with
           | Normal s => s
           | Throw _ => EmptyString
           end
       | Throw _ => EmptyString
       end |}.

(** The authenticator after the first [n] numbered requests were verified. *)
Fixpoint burst (n : nat) (this : MessageAuthenticator) : MessageAuthenticator :=
  match n with
  | O => this
  | S k => snd (verify t0 (signed abc (numbered k)) (burst k this))
  end.

(** The authenticator with the secret ["abc"], after a cleanup and 1001
    accepted requests. *)
Definition flooded : MessageAuthenticator := burst 1001 (cleanupOldNonces keyed).

(** The request [getChainId], signed under the secret ["abd"]. *)
Definition getChainId_abd : InboundMessage :=
  {| in_requestId := Some "1";
     in_action := Some "GET_CHAIN_ID";
     in_widgetSecret := None;
     in_chain := Some "ethereum";
     in_params := JsUndefined;
     in_timestamp := Some t0;
     in_nonce := Some "n1";
     in_signature :=
       Some "66b3e5a2fea0ca8b04e3c3f067a23318495165f222a5e4cd4f8997deff678ed3" |}.

(** The page after the secret ["abc"], with a provider that resolves with
    [undefined]. *)
Definition silentPage : Env :=
  receive t0 (Object (exchange "0" (Some abc))) (page (Some silentProvider)).

(** The signed answers to [unsupported] on [keyedPage] and to [getChainId]
    on [silentPage]. *)
Definition unsupportedAnswer : SecureResponse :=
  {| sr_requestId := "2";
     sr_success := false;
     sr_data := JsNull;
     sr_error := JsStr "Unsupported action: FOO";
     sr_timestamp := t0;
     sr_signature :=
       "8462c9dbe59308401f2c5d8ac89705e91184acb8c05d820f349f3d79aeb2a840" |}.

(** What [processWalletRequest] returns for [unsupported]. *)
Definition unsupportedResponse : AdapterResponse :=
  {| resp_requestId := "2";
     resp_success := false;
     resp_data := JsNull;
     resp_error := JsStr "Unsupported action: FOO" |}.

Definition silentAnswer : SecureResponse :=
  {| sr_requestId := "1";
     sr_success := true;
     sr_data := JsUndefined;
     sr_error := JsUndefined;
     sr_timestamp := t0;
     sr_signature :=
       "003788b5186b5bc6c8e6eb947e652d6af99ade015a9d31ca782b9b28a6ab1fdc" |}.

Definition getChainIdAnswer : SecureResponse :=
  {| sr_requestId := "1";
     sr_success := true;
     sr_data := JsStr "0x1";
     sr_error := JsUndefined;
     sr_timestamp := t0;
     sr_signature :=
       "023f3ea9290db3dd84ef5f6e8f9ada9fbca706bac7cd855807cec9989042d6ed" |}.

End Scenario.

(** ** The rest of [adapter.ts]

    The first [createWalletAdapter] of the file, which answers without
    authentication, and the notions the properties of the wallet operations,
    of the handler and of the hexadecimal signature are stated with. *)

(** The cases of the [switch] of [processWalletRequest]. *)
Definition supportedActions : list string :=
  [ "CONNECT_WALLET"; "DISCONNECT_WALLET"; "GET_ACCOUNTS"; "GET_CHAIN_ID";
    "GET_BALANCE"; "SIGN_MESSAGE"; "SIGN_TRANSACTION"; "BROADCAST_TRANSACTION";
    "SWITCH_NETWORK"; "NETWORK_SWITCHED_EVENT" ].

(** The parameter an action tests first, and the error it throws when the
    parameter is falsy. *)
Definition requiredParameter (action : string) : option (string * string) :=
  if String.eqb action "SIGN_MESSAGE"
  then Some ("message", "Message is required for signing")
  else if String.eqb action "SIGN_TRANSACTION"
  then Some ("transaction", "Transaction is required for signing")
  else if String.eqb action "BROADCAST_TRANSACTION"
  then Some ("transaction", "Transaction is required for broadcasting")
  else if String.eqb action "SWITCH_NETWORK"
  then Some ("chainId", "Chain ID is required for network switch")
  else None.

(** The two shapes of a response. *)
Definition success (req : AdapterRequest) (result : JsVal) : AdapterResponse :=
  {| resp_requestId := req_requestId req;
     resp_success := true;
     resp_data := result;
     resp_error := JsUndefined |}.

Definition failureWith (req : AdapterRequest) (error : JsVal) : AdapterResponse :=
  {| resp_requestId := req_requestId req;
     resp_success := false;
     resp_data := JsNull;
     resp_error := error |}.

Definition failure (req : AdapterRequest) (error : string) : AdapterResponse :=
  failureWith req (JsStr error).

(** [err.message || 'Wallet operation failed']. *)
Definition errorMessage (message : JsVal) : JsVal :=
  if truthy message then message else JsStr "Wallet operation failed".

(** [env] after [events]. *)
Definition logged (env : Env) (events : list Event) : Env :=
  {| dappAuthenticator := dappAuthenticator env;
     window := window env;
     trace := trace env ++ events |}.

(** [env] with [window.walletDisconnected] set. *)
Definition setDisconnected (b : bool) (env : Env) : Env :=
  {| dappAuthenticator := dappAuthenticator env;
     window := {| ethereum := ethereum (window env); walletDisconnected := b |};
     trace := trace env |}.

(** [env] with [pre] having happened before. *)
Definition prefixed (pre : list Event) (env : Env) : Env :=
  {| dappAuthenticator := dappAuthenticator env;
     window := window env;
     trace := pre ++ trace env |}.

(** A computation that does not look at what has happened before. *)
Definition traceOblivious {A} (m : Op Env A) : Prop :=
  ∀ pre env, m (prefixed pre env) = (fst (m env), prefixed pre (snd (m env))).

(** Two computations that do the same on every state. *)
Definition sameOp {S A} (m m' : Op S A) : Prop := ∀ s, m s = m' s.

(** The messages posted on the channel among [events], oldest first. *)
Fixpoint posted (events : list Event) : list ChannelMessage :=
  match events with
  | [] => []
  | PostMessage m :: rest => m :: posted rest
  | _ :: rest => posted rest
  end.

Definition responseId (m : ChannelMessage) : string :=
  match m with
  | Unsigned response => resp_requestId response
  | Signed response => sr_requestId response
  end.

(** A computation that posts nothing on the channel. *)
Definition postsNothing {A} (m : Op Env A) : Prop :=
  ∀ env, posted (trace (snd (m env))) = posted (trace env).

(** The value of a hexadecimal digit. *)
Definition hexValue (c : ascii) : N :=
  match c with
  | "0" => 0 | "1" => 1 | "2" => 2 | "3" => 3 | "4" => 4 | "5" => 5 | "6" => 6
  | "7" => 7 | "8" => 8 | "9" => 9 | "a" => 10 | "b" => 11 | "c" => 12
  | "d" => 13 | "e" => 14 | "f" => 15 | _ => 16
  end%char%N.

(** The bytes a string of hexadecimal digits stands for. *)
Fixpoint unhex (s : string) : list byte :=
  match s with
  | String hi (String lo rest) =>
      match Byte.of_N (hexValue hi * 16 + hexValue lo) with
      | Some b => b :: unhex rest
      | None => []
      end
  | _ => []
  end.

Section LegacyAdapter.

Context {platform : Platform}.

(** [getEthereumProvider] of the first document of the file. *)
Definition legacy_getEthereumProvider : Op Env (JsVal → Completion JsVal) :=
  do w <- gets window;
  match ethereum w with
  | Some provider => ret provider
  | None => throw (Error "MetaMask not installed. Please install MetaMask to use this feature.")
  end.

(** The [switch (req.action)] in the [onmessage] of the first
    [createWalletAdapter], case by case as it is written there; [req] is
    [event.data], taken for an [AdapterRequest]. *)
Definition legacy_switch (req : AdapterRequest) : Op Env JsVal :=
  let params := req_params req in
  do ethereum <- legacy_getEthereumProvider;
  if is_action req "CONNECT_WALLET" then
    do_ setWalletDisconnected false;
    do result <- request ethereum (method "eth_requestAccounts");
    do_ dispatchEvent "wallet-connect" (JsObj [("accounts", result)]);
    ret result
  else if is_action req "DISCONNECT_WALLET" then
    do_ tryCatch
          (do permissions <-
             request ethereum
               (method_params "eth_requestAccounts" [JsObj [("eth_accounts", JsObj [])]]);
           ret tt)
          (fun error => ret tt);
    do_ setWalletDisconnected true;
    do_ dispatchEvent "wallet-disconnect" JsNull;
    ret (JsObj [("status", JsStr "disconnected")])
  else if is_action req "GET_ACCOUNTS" then
    do w <- gets window;
    if walletDisconnected w then ret (JsArr [])
    else
      do result <- request ethereum (method "eth_accounts");
      do_ dispatchEvent "wallet-connect" (JsObj [("accounts", result)]);
      ret result
  else if is_action req "GET_CHAIN_ID" then
    do result <- request ethereum (method "eth_chainId");
    ret result
  else if is_action req "GET_BALANCE" then
    do accounts <- request ethereum (method "eth_accounts");
    do none <- liftC (lengthIsZero accounts);
    if none then throw (Error "No accounts connected")
    else
      do first <- liftC (getFirst accounts);
      do balance <- request ethereum
                      (method_params "eth_getBalance" [first; JsStr "latest"]);
      ret (etherOfWeiHex balance)
  else if is_action req "SIGN_MESSAGE" then
    if negb (truthy (getPropOpt params "message"))
    then throw (Error "Message is required for signing")
    else
      do accountsForSigning <- request ethereum (method "eth_accounts");
      do none <- liftC (lengthIsZero accountsForSigning);
      if none then throw (Error "No accounts connected")
      else
        do message <- liftC (getProp params "message");
        do first <- liftC (getFirst accountsForSigning);
        do result <- request ethereum (method_params "personal_sign" [message; first]);
        ret result
  else if is_action req "SIGN_TRANSACTION" then
    if negb (truthy (getPropOpt params "transaction"))
    then throw (Error "Transaction is required for signing")
    else
      do transaction <- liftC (getProp params "transaction");
      do result <- request ethereum
                     (method_params "eth_signTransaction" [transaction]);
      ret result
  else if is_action req "BROADCAST_TRANSACTION" then
    if negb (truthy (getPropOpt params "transaction"))
    then throw (Error "Transaction is required for broadcasting")
    else
      do transaction <- liftC (getProp params "transaction");
      do result <- request ethereum
                     (method_params "eth_sendTransaction" [transaction]);
      ret result
  else if is_action req "SWITCH_NETWORK" then
    if negb (truthy (getPropOpt params "chainId"))
    then throw (Error "Chain ID is required for network switch")
    else
      do chainId <- liftC (getProp params "chainId");
      let changed := JsObj [("chainId", chainId)] in
      tryCatch
        (do switched <-
           request ethereum (method_params "wallet_switchEthereumChain" [changed]);
         do_ dispatchEvent "wallet-network-changed" changed;
         ret (JsObj [("chainId", chainId); ("status", JsStr "switched")]))
        (fun switchError =>
           do unknown <- liftC (codeIs4902 switchError);
           if unknown then
             do networkConfig <- liftC (getProp params "networkConfig");
             if truthy networkConfig then
               do added <-
                 request ethereum (method_params "wallet_addEthereumChain" [networkConfig]);
               do_ dispatchEvent "wallet-network-changed" changed;
               ret (JsObj [("chainId", chainId); ("status", JsStr "added_and_switched")])
             else throw (Error "Network not found and no network config provided")
           else throw switchError)
  else if is_action req "NETWORK_SWITCHED_EVENT" then
    do_ dispatchEvent "NETWORK_SWITCHED_EVENT"
          (if truthy params then params else JsObj []);
    ret (JsObj [("status", JsStr "event_dispatched")])
  else
    throw (Error ("Unsupported action: " +:+ default "undefined" (req_action req))).

(** The [response] object of that handler as it is declared, before the
    [try]. *)
Definition legacy_declared (req : AdapterRequest) : AdapterResponse :=
  {| resp_requestId := req_requestId req;
     resp_success := false;
     resp_data := JsNull;
     resp_error := JsUndefined |}.

(** The [try] and the [catch] of that handler: the two assignments after the
    [switch], or the one of the [catch]. *)
Definition legacy_response (req : AdapterRequest) : Op Env AdapterResponse :=
  let response := legacy_declared req in
  tryCatch
    (do result <- legacy_switch req;
     ret {| resp_requestId := resp_requestId response;
            resp_success := true;
            resp_data := result;
            resp_error := resp_error response |})
    (fun err =>
       do message <- liftC (getProp err "message");
       ret {| resp_requestId := resp_requestId response;
              resp_success := resp_success response;
              resp_data := resp_data response;
              resp_error := if truthy message then message
                            else JsStr "Wallet operation failed" |}).

(** [channel.port1.onmessage] of the first [createWalletAdapter]. *)
Definition legacy_onmessage (req : AdapterRequest) : Op Env unit :=
  do response <- legacy_response req;
  postMessage (Unsigned response).

End LegacyAdapter.

(** Requests, providers and pages for the wallet operations. *)
Module Cases.

Import Scenario.

Definition request (requestId action : string) (params : JsVal) : AdapterRequest :=
  {| req_requestId := requestId;
     req_action := Some action;
     req_chain := Some "ethereum";
     req_params := params |}.

(** A provider with no account. *)
Definition emptyWallet (args : JsVal) : Completion JsVal :=
  match getPropOpt args "method" with
  | JsStr "eth_accounts" => Normal (JsArr [])
  | _ => Throw (JsObj [("code", JsNum 4100); ("message", JsStr "Unauthorized")])
  end.

(** A provider that does not know the chain it is asked to switch to, and
    accepts to add it. *)
Definition unknownChainWallet (args : JsVal) : Completion JsVal :=
  match getPropOpt args "method" with
  | JsStr "wallet_switchEthereumChain" =>
      Throw (JsObj [("code", JsNum 4902); ("message", JsStr "Unrecognized chain ID")])
  | JsStr "wallet_addEthereumChain" => Normal JsNull
  | _ => Throw (JsObj [("code", JsNum 4200); ("message", JsStr "Unsupported method")])
  end.

(** A provider that rejects every request with [null]. *)
Definition nullWallet (args : JsVal) : Completion JsVal := Throw JsNull.

(** The chain Base, as [config/chains.ts] has it. *)
Definition baseConfig : JsVal :=
  JsObj [ ("chainId", JsStr "0x2105"); ("chainName", JsStr "Base") ].

Definition switchToBase : AdapterRequest :=
  request "5" "SWITCH_NETWORK"
    (JsObj [("chainId", JsStr "0x2105"); ("networkConfig", baseConfig)]).

(** A request with the timestamp 0, signed under ["abc"]. *)
Definition getChainIdAtZero : InboundMessage :=
  {| in_requestId := Some "3";
     in_action := Some "GET_CHAIN_ID";
     in_widgetSecret := None;
     in_chain := Some "ethereum";
     in_params := JsUndefined;
     in_timestamp := Some 0;
     in_nonce := Some "n3";
     in_signature :=
       Some "264c71d1728fb82d4ab69378b5e9a136544d33d170a5a0b5295f6b918c5ef5e6" |}.

(** The page with the provider that rejects with [null], after the secret
    ["abc"]. *)
Definition nullPage : Env :=
  receive t0 (Object (exchange "0" (Some abc))) (page (Some nullWallet)).

End Cases.

(** ** Properties of the authenticator *)

Section AuthenticatorProperties.

Context {platform : Platform}.

(** [verifyIncomingMessage] as one decision: the four checks in the order of
    the source, a throwing platform caught as a rejection. *)
Lemma verifyIncomingMessage_eq now message this :
  verifyIncomingMessage now message this =
  if negb (truthy_string (sharedSecret this)) then (Normal false, this)
  else if Z.abs (now - timestamp message) >? maxMessageAge this then (Normal false, this)
  else if bool_decide (nonce message ∈ usedNonces this) then (Normal false, this)
  else match JSON_stringify (messageWithoutSignature message) with
       | Throw _ => (Normal false, this)
       | Normal messageString =>
           match computeHMAC messageString (sharedSecret this) with
           | Throw _ => (Normal false, this)
           | Normal expectedSignature =>
               if negb (String.eqb expectedSignature (signature message))
               then (Normal false, this)
               else (Normal true, addNonce (nonce message) this)
           end
       end.
Proof.
  unfold verifyIncomingMessage, verifyIncomingMessage_try, tryCatch, bind, gets, ret, liftC, modify.
  destruct (negb (truthy_string (sharedSecret this))); [reflexivity|].
  destruct (Z.abs (now - timestamp message) >? maxMessageAge this); [reflexivity|].
  destruct (bool_decide (nonce message ∈ usedNonces this)); [reflexivity|].
  destruct (JSON_stringify (messageWithoutSignature message)) as [messageString|e];
    [|reflexivity].
  destruct (computeHMAC messageString (sharedSecret this)) as [expected|e];
    [|reflexivity].
  destruct (negb (String.eqb expected (signature message))); reflexivity.
Qed.

Lemma verifyIncomingMessage_returns now message this :
  ∃ b this', verifyIncomingMessage now message this = (Normal b, this').
Proof.
  rewrite verifyIncomingMessage_eq.
  repeat match goal with
         | |- context [if ?c then _ else _] => destruct c
         | |- context [match ?c with Normal _ => _ | Throw _ => _ end] => destruct c
         end; eauto.
Qed.

(** Acceptance is exactly: a secret, a fresh timestamp, an unused nonce and
    the right signature; the nonce is then recorded. *)
Lemma verifyIncomingMessage_true now message this this' :
  verifyIncomingMessage now message this = (Normal true, this') ↔
  truthy_string (sharedSecret this) = true
  ∧ Z.abs (now - timestamp message) <= maxMessageAge this
  ∧ (nonce message ∉ usedNonces this)
  ∧ correctlySigned (sharedSecret this) message
  ∧ this' = addNonce (nonce message) this.
Proof.
  rewrite verifyIncomingMessage_eq. unfold correctlySigned. split.
  - destruct (truthy_string (sharedSecret this)) eqn:Hs; simpl; [|discriminate].
    destruct (Z.abs (now - timestamp message) >? maxMessageAge this) eqn:Hage;
      [discriminate|].
    destruct (bool_decide (nonce message ∈ usedNonces this)) eqn:Hn; [discriminate|].
    destruct (JSON_stringify (messageWithoutSignature message)) as [ms|e];
      [|discriminate].
    destruct (computeHMAC ms (sharedSecret this)) as [sig|e] eqn:Hmac; [|discriminate].
    destruct (String.eqb sig (signature message)) eqn:Heq; simpl; [|discriminate].
    intros [= <-]. apply String.eqb_eq in Heq. subst sig.
    apply bool_decide_eq_false in Hn.
    repeat split; try done; [lia | eauto].
  - intros (Hs & Hage & Hn & (ms & Hjson & Hmac) & ->).
    rewrite Hs; simpl.
    destruct (Z.abs (now - timestamp message) >? maxMessageAge this) eqn:Hgt; [lia|].
    rewrite bool_decide_eq_false_2 by done.
    rewrite Hjson, Hmac, String.eqb_refl. reflexivity.
Qed.

Lemma verifyIncomingMessage_false now message this this' :
  verifyIncomingMessage now message this = (Normal false, this') → this' = this.
Proof.
  rewrite verifyIncomingMessage_eq.
  repeat match goal with
         | |- context [if ?c then _ else _] => destruct c
         | |- context [match ?c with Normal _ => _ | Throw _ => _ end] => destruct c
         end; congruence.
Qed.

Lemma size_addNonce n this :
  n ∉ usedNonces this →
  size (usedNonces (addNonce n this)) = S (size (usedNonces this)).
Proof.
  intros Hn. simpl. rewrite size_union by set_solver. by rewrite size_singleton.
Qed.

(** C1. A correctly signed message with a fresh timestamp and an unused nonce
    is accepted by [verifyIncomingMessage] once: the first call returns true
    and records the nonce, and a second call with the same message, whenever
    it is made, returns false. *)
Theorem verify_accepts_exactly_once now later message this :
  truthy_string (sharedSecret this) = true →
  correctlySigned (sharedSecret this) message →
  Z.abs (now - timestamp message) <= maxMessageAge this →
  nonce message ∉ usedNonces this →
  ∃ this',
    verifyIncomingMessage now message this = (Normal true, this')
    ∧ nonce message ∈ usedNonces this'
    ∧ verifyIncomingMessage later message this' = (Normal false, this').
Proof.
  intros Hsecret Hsigned Hage Hfresh.
  exists (addNonce (nonce message) this). split; [|split].
  - by apply verifyIncomingMessage_true.
  - simpl. set_solver.
  - rewrite verifyIncomingMessage_eq. simpl. rewrite Hsecret. simpl.
    destruct (Z.abs (later - timestamp message) >? maxMessageAge this); [done|].
    rewrite bool_decide_eq_true_2 by set_solver. done.
Qed.

(** C2. A message whose timestamp is further than [maxMessageAge] from the
    clock, before or after it, is rejected, whatever its signature and its
    nonce are. *)
Theorem verify_rejects_stale now message this :
  Z.abs (now - timestamp message) > maxMessageAge this →
  verifyIncomingMessage now message this = (Normal false, this).
Proof.
  intros Hage. rewrite verifyIncomingMessage_eq.
  destruct (negb (truthy_string (sharedSecret this))); [done|].
  destruct (Z.abs (now - timestamp message) >? maxMessageAge this) eqn:Hgt; [done|lia].
Qed.

(** C10. [verifyIncomingMessage] always returns, and when it returns false,
    for whichever reason, it leaves the authenticator as it was: the nonce
    is in the ledger afterwards only if it was there before. *)
Theorem verify_false_keeps_state now message this :
  (∃ b this', verifyIncomingMessage now message this = (Normal b, this'))
  ∧ ∀ this',
      verifyIncomingMessage now message this = (Normal false, this') →
      this' = this
      ∧ (nonce message ∈ usedNonces this' → nonce message ∈ usedNonces this).
Proof.
  split; [apply verifyIncomingMessage_returns|].
  intros this' H. apply verifyIncomingMessage_false in H. by subst.
Qed.

(** The reasons for which [verifyIncomingMessage] returns false. *)
Lemma verify_false_reasons now message this :
  verifyIncomingMessage now message this = (Normal false, this) ↔
  truthy_string (sharedSecret this) = false
  ∨ Z.abs (now - timestamp message) > maxMessageAge this
  ∨ nonce message ∈ usedNonces this
  ∨ ¬ correctlySigned (sharedSecret this) message.
Proof.
  split.
  - intros Hfalse.
    destruct (truthy_string (sharedSecret this)) eqn:Hs; [|by left].
    destruct (Z.abs (now - timestamp message) >? maxMessageAge this) eqn:Hgt;
      [right; left; lia|].
    destruct (decide (nonce message ∈ usedNonces this)) as [Hin|Hout];
      [by right; right; left|].
    right; right; right. intros Hsigned.
    assert (verifyIncomingMessage now message this
            = (Normal true, addNonce (nonce message) this)) as Htrue.
    { apply verifyIncomingMessage_true. repeat split; try done. lia. }
    congruence.
  - intros Hreason.
    destruct (verifyIncomingMessage_returns now message this) as (b & this' & Hrun).
    destruct b.
    + apply verifyIncomingMessage_true in Hrun as (Hs & Hage & Hn & Hsig & _).
      destruct Hreason as [H|[H|[H|H]]]; [congruence|lia|done|done].
    + pose proof (verifyIncomingMessage_false _ _ _ _ Hrun). by subst.
Qed.

(** A message turned away for its timestamp alone is accepted when it comes
    again in time: the rejection did not use up its nonce. *)
Lemma verify_stale_then_accepted early now message this :
  truthy_string (sharedSecret this) = true →
  correctlySigned (sharedSecret this) message →
  nonce message ∉ usedNonces this →
  Z.abs (early - timestamp message) > maxMessageAge this →
  Z.abs (now - timestamp message) <= maxMessageAge this →
  ∃ this',
    verifyIncomingMessage early message this = (Normal false, this)
    ∧ verifyIncomingMessage now message this = (Normal true, this').
Proof.
  intros Hs Hsig Hn Hearly Hnow. eexists. split.
  - apply verify_false_reasons. tauto.
  - by apply verifyIncomingMessage_true.
Qed.

(** C5, as the code has it.  [setSharedSecret] replaces the secret and
    empties the ledger, whatever the state was; once [S1] is installed, a
    message signed under another secret is rejected provided its signature
    is not also the HMAC of its serialization under [S1], as is the case
    when the HMACs of that serialization under [S1] and under the old
    secret [S2] differ. *)
Theorem rotation_rejects_old_signatures S1 now message this :
  (sharedSecret (setSharedSecret S1 this) = S1
   ∧ usedNonces (setSharedSecret S1 this) = ∅
   ∧ maxMessageAge (setSharedSecret S1 this) = maxMessageAge this)
  ∧ (¬ correctlySigned S1 message →
     verifyIncomingMessage now message (setSharedSecret S1 this)
     = (Normal false, setSharedSecret S1 this))
  ∧ (∀ S2,
       correctlySigned S2 message →
       (∀ messageString,
          JSON_stringify (messageWithoutSignature message) = Normal messageString →
          computeHMAC messageString S1 ≠ computeHMAC messageString S2) →
       verifyIncomingMessage now message (setSharedSecret S1 this)
       = (Normal false, setSharedSecret S1 this)).
Proof.
  assert (¬ correctlySigned S1 message →
          verifyIncomingMessage now message (setSharedSecret S1 this)
          = (Normal false, setSharedSecret S1 this)) as Hreject.
  { intros Hnot. apply verify_false_reasons. simpl. tauto. }
  split; [done|]. split; [exact Hreject|].
  intros S2 (ms2 & Hjson2 & Hmac2) Hdiffer. apply Hreject.
  intros (ms1 & Hjson1 & Hmac1).
  rewrite Hjson2 in Hjson1. injection Hjson1 as <-.
  apply (Hdiffer ms2 Hjson2). congruence.
Qed.

Lemma cleanupOldNonces_size this :
  ((1000 < size (usedNonces this))%nat →
   usedNonces (cleanupOldNonces this) = ∅
   ∧ sharedSecret (cleanupOldNonces this) = sharedSecret this)
  ∧ ((size (usedNonces this) ≤ 1000)%nat → cleanupOldNonces this = this)
  ∧ (size (usedNonces (cleanupOldNonces this)) ≤ 1000)%nat.
Proof.
  unfold cleanupOldNonces.
  destruct (1000 <? size (usedNonces this))%nat eqn:Hbig.
  - apply Nat.ltb_lt in Hbig. repeat split; try done; try lia.
    cbn [usedNonces]. rewrite size_empty. lia.
  - apply Nat.ltb_ge in Hbig. repeat split; try done; lia.
Qed.

End AuthenticatorProperties.

(** ** Properties of the message handler *)

Section HandlerProperties.

Context {platform : Platform}.

(** Running the combinators of [Op]. *)
Ltac run :=
  unfold handleSecureMessage, handleSecureMessage_resume, createSecureResponse,
    validateIncomingMessage, postMessage, emit, liftAuth, tryCatch, bind, gets,
    modify, ret, throw, liftC, getSharedSecret; cbn beta iota.

Lemma invalidFormat_NotObject p : invalidFormat (NotObject p) = true.
Proof. destruct p; unfold invalidFormat; simpl; by rewrite ?orb_true_r. Qed.

Lemma isSecretExchange_action m :
  in_action m ≠ Some EXCHANGE_SHARED_SECRET → isSecretExchange m = false.
Proof.
  unfold isSecretExchange. destruct (in_action m) as [a|]; [|done].
  intros Hne. destruct (String.eqb a EXCHANGE_SHARED_SECRET) eqn:Heq; [|done].
  apply String.eqb_eq in Heq. congruence.
Qed.

Lemma isSecretExchange_true m :
  isSecretExchange m = true ↔
  in_action m = Some EXCHANGE_SHARED_SECRET
  ∧ ∃ w, in_widgetSecret m = Some w ∧ truthy_string w = true.
Proof.
  unfold isSecretExchange, truthy_option_string, truthy_string. split.
  - destruct (in_action m) as [a|]; [|done].
    destruct (String.eqb a EXCHANGE_SHARED_SECRET) eqn:Heq; [|done].
    apply String.eqb_eq in Heq. subst a.
    destruct (in_widgetSecret m) as [w|]; [|done]. simpl. eauto.
  - intros (-> & w & -> & Hw). simpl. by rewrite Hw.
Qed.

Lemma missingAuthenticationFields_absent m :
  in_timestamp m = None ∨ in_nonce m = None ∨ in_signature m = None →
  missingAuthenticationFields m = true.
Proof.
  unfold missingAuthenticationFields. intros [H|[H|H]]; rewrite H; simpl;
    repeat (done || apply orb_true_r || (rewrite orb_true_r)).
Qed.

(** What [handleSecureMessage] does with a secret exchange. *)
Lemma handleSecureMessage_exchange options nowVerify nowSign m rid w env :
  in_requestId m = Some rid → truthy_string rid = true →
  in_action m = Some EXCHANGE_SHARED_SECRET →
  in_widgetSecret m = Some w → truthy_string w = true →
  handleSecureMessage options nowVerify nowSign (Object m) env =
  match opt_onSharedSecretReceived options with
  | None =>
      (Normal tt,
       {| dappAuthenticator := setSharedSecret w (dappAuthenticator env);
          window := window env;
          trace := trace env ++ [PostMessage (Unsigned (ackResponse rid))] |})
  | Some onSharedSecretReceived =>
      match onSharedSecretReceived w with
      | Normal _ =>
          (Normal tt,
           {| dappAuthenticator := setSharedSecret w (dappAuthenticator env);
              window := window env;
              trace := trace env
                       ++ [ SharedSecretReceived w;
                            PostMessage (Unsigned (ackResponse rid)) ] |})
      | Throw error =>
          (Throw error,
           {| dappAuthenticator := setSharedSecret w (dappAuthenticator env);
              window := window env;
              trace := trace env ++ [SharedSecretReceived w] |})
      end
  end.
Proof.
  intros Hrid Htruthy Haction Hw Hwt.
  assert (isSecretExchange m = true) as Hex
    by (apply isSecretExchange_true; eauto).
  run. unfold invalidFormat, truthy_option_string.
  rewrite Hrid. simpl. fold (truthy_string rid). rewrite Htruthy. simpl.
  rewrite Hex, Hw. simpl.
  destruct (opt_onSharedSecretReceived options) as [callback|]; simpl; [|done].
  destruct (callback w) as [[]|error]; simpl; [|done].
  by rewrite <- app_assoc.
Qed.

(** Whatever the callback does, the secret of an exchange is installed. *)
Lemma handleSecureMessage_exchange_installs options nowVerify nowSign m rid w env :
  in_requestId m = Some rid → truthy_string rid = true →
  in_action m = Some EXCHANGE_SHARED_SECRET →
  in_widgetSecret m = Some w → truthy_string w = true →
  dappAuthenticator (snd (handleSecureMessage options nowVerify nowSign (Object m) env))
  = setSharedSecret w (dappAuthenticator env).
Proof.
  intros Hrid Htruthy Haction Hw Hwt.
  rewrite (handleSecureMessage_exchange _ _ _ _ rid w) by done.
  destruct (opt_onSharedSecretReceived options) as [callback|]; [|done].
  by destruct (callback w).
Qed.

(** [onmessage] returns whatever [handleSecureMessage] does, in the state
    that leaves. *)
Lemma onmessage_eq options nowVerify nowSign data env :
  onmessage options nowVerify nowSign data env =
  (Normal tt, snd (handleSecureMessage options nowVerify nowSign data env)).
Proof.
  unfold onmessage, tryCatch, ret.
  by destruct (handleSecureMessage options nowVerify nowSign data env) as [[[]|e] env1].
Qed.

(** What it does while no secret is installed with any other message that
    has a requestId. *)
Lemma handleSecureMessage_unkeyed options nowVerify nowSign m rid env :
  truthy_string (sharedSecret (dappAuthenticator env)) = false →
  in_requestId m = Some rid → truthy_string rid = true →
  isSecretExchange m = false →
  handleSecureMessage options nowVerify nowSign (Object m) env =
  (Normal tt,
   {| dappAuthenticator := dappAuthenticator env;
      window := window env;
      trace := trace env ++ [PostMessage (Unsigned (errorResponse rid))] |}).
Proof.
  intros Hsecret Hrid Htruthy Hex.
  run. unfold invalidFormat, truthy_option_string.
  rewrite Hrid. simpl. fold (truthy_string rid). rewrite Htruthy. simpl.
  rewrite Hex. destruct env as [auth w tr]. simpl in *. by rewrite Hsecret.
Qed.

Lemma handleSecureMessage_invalid options nowVerify nowSign data env :
  invalidFormat data = true →
  handleSecureMessage options nowVerify nowSign data env = (Normal tt, env).
Proof. intros H. run. by rewrite H. Qed.

(** With a secret installed, a message that is not a secret exchange and
    does not pass [validateIncomingMessage] leaves no mark. *)
Lemma handleSecureMessage_unauthenticated options nowVerify nowSign m env :
  truthy_string (sharedSecret (dappAuthenticator env)) = true →
  isSecretExchange m = false →
  missingAuthenticationFields m = true
  ∨ fst (verifyIncomingMessage nowVerify (asAuthenticatedMessage m)
           (dappAuthenticator env)) = Normal false →
  handleSecureMessage options nowVerify nowSign (Object m) env = (Normal tt, env).
Proof.
  intros Hsecret Hex Hbad. run.
  destruct (invalidFormat (Object m)); [done|].
  rewrite Hex. destruct env as [auth w tr]. simpl in *. rewrite Hsecret. simpl.
  destruct (missingAuthenticationFields m) eqn:Hmiss; [done|].
  destruct Hbad as [|Hverify]; [done|].
  cbn [negb dappAuthenticator window trace] in *.
  destruct (verifyIncomingMessage nowVerify (asAuthenticatedMessage m) auth)
    as [c auth'] eqn:Hrun.
  simpl in Hverify. subst c.
  apply verifyIncomingMessage_false in Hrun. by subst.
Qed.

(** With a secret installed, a message that passes [validateIncomingMessage]
    is handed to [processWalletRequest], and the response to
    [handleSecureMessage_resume]. *)
Lemma handleSecureMessage_authenticated options nowVerify nowSign m env auth' :
  invalidFormat (Object m) = false →
  isSecretExchange m = false →
  truthy_string (sharedSecret (dappAuthenticator env)) = true →
  missingAuthenticationFields m = false →
  verifyIncomingMessage nowVerify (asAuthenticatedMessage m) (dappAuthenticator env)
  = (Normal true, auth') →
  handleSecureMessage options nowVerify nowSign (Object m) env =
  bind (processWalletRequest (stripAuthenticationFields (asAuthenticatedMessage m)))
       (handleSecureMessage_resume nowSign)
       {| dappAuthenticator := auth'; window := window env; trace := trace env |}.
Proof.
  intros Hvalid Hex Hsecret Hmiss Hverify.
  destruct env as [auth w tr]. cbn [dappAuthenticator window trace] in *.
  run. rewrite Hvalid, Hex, Hmiss.
  cbn [dappAuthenticator window trace]. rewrite Hsecret.
  cbn [negb dappAuthenticator window trace]. by rewrite Hverify.
Qed.

Lemma signResponse_eq now response this :
  signResponse now response this =
  if negb (truthy_string (sharedSecret this))
  then (Throw (Error "🔒 No shared secret configured for signing response"), this)
  else match JSON_stringify (responseData response now) with
       | Throw e => (Throw e, this)
       | Normal messageString =>
           match computeHMAC messageString (sharedSecret this) with
           | Throw e => (Throw e, this)
           | Normal signature => (Normal (signedResponse response now signature), this)
           end
       end.
Proof.
  unfold signResponse, bind, gets, throw, liftC, ret.
  destruct (negb (truthy_string (sharedSecret this))); [done|].
  destruct (JSON_stringify (responseData response now)) as [ms|e]; [|done].
  by destruct (computeHMAC ms (sharedSecret this)).
Qed.

(** [signResponse] copies the four fields of the response and stamps it. *)
Lemma signResponse_fields now response this sr this' :
  signResponse now response this = (Normal sr, this') →
  sr_requestId sr = resp_requestId response
  ∧ sr_success sr = resp_success response
  ∧ sr_data sr = resp_data response
  ∧ sr_error sr = resp_error response
  ∧ sr_timestamp sr = now
  ∧ correctlySignedResponse (sharedSecret this) sr.
Proof.
  rewrite signResponse_eq. unfold correctlySignedResponse.
  destruct (negb (truthy_string (sharedSecret this))); [done|].
  destruct (JSON_stringify (responseData response now)) as [ms|e] eqn:Hjson; [|done].
  destruct (computeHMAC ms (sharedSecret this)) as [sig|e] eqn:Hmac; [|done].
  intros [= <- <-]. cbn. repeat split; try done.
  exists ms. split; [|done]. by destruct response.
Qed.

Lemma createSecureResponse_eq now response env :
  createSecureResponse now response env =
  (fst (signResponse now response (dappAuthenticator env)), env).
Proof.
  unfold createSecureResponse, liftAuth, tryCatch, throw.
  rewrite signResponse_eq. destruct env as [auth w tr].
  cbn [dappAuthenticator window trace].
  destruct (negb (truthy_string (sharedSecret auth))); [done|].
  destruct (JSON_stringify (responseData response now)) as [ms|e]; [|done].
  by destruct (computeHMAC ms (sharedSecret auth)).
Qed.

(** The two shapes of what [processWalletRequest] returns. *)
Lemma processWalletRequest_response req env response env' :
  processWalletRequest req env = (Normal response, env') →
  resp_requestId response = req_requestId req
  ∧ ((resp_success response = true
      ∧ resp_error response = JsUndefined
      ∧ walletAction req (snd (emit (ProcessWalletRequest req) env))
        = (Normal (resp_data response), env'))
     ∨ (resp_success response = false
        ∧ resp_data response = JsNull
        ∧ truthy (resp_error response) = true
        ∧ ∃ err, walletAction req (snd (emit (ProcessWalletRequest req) env))
                 = (Throw err, env'))).
Proof.
  unfold processWalletRequest, bind at 1, tryCatch, bind, ret, liftC.
  destruct (emit (ProcessWalletRequest req) env) as [c env0] eqn:Hemit.
  unfold emit, modify in Hemit. injection Hemit as <- <-. cbn [snd].
  match goal with
  | |- context [walletAction req ?e] =>
      destruct (walletAction req e) as [[result|err] env1]
  end.
  - intros [= <- <-]. split; [done|]. left. done.
  - destruct (getProp err "message") as [message|e]; [|done].
    intros [= <- <-]. split; [done|]. right. cbn.
    repeat split; try done; [|by eexists].
    by destruct (truthy message) eqn:Hm.
Qed.

(** An authenticated request is answered with the signed response, or, when
    [processWalletRequest] or the signing throws, not at all. *)
Lemma handleSecureMessage_answers options nowVerify nowSign m env auth' :
  invalidFormat (Object m) = false →
  isSecretExchange m = false →
  truthy_string (sharedSecret (dappAuthenticator env)) = true →
  missingAuthenticationFields m = false →
  verifyIncomingMessage nowVerify (asAuthenticatedMessage m) (dappAuthenticator env)
  = (Normal true, auth') →
  let req := stripAuthenticationFields (asAuthenticatedMessage m) in
  let env0 := {| dappAuthenticator := auth'; window := window env; trace := trace env |} in
  handleSecureMessage options nowVerify nowSign (Object m) env =
  match processWalletRequest req env0 with
  | (Normal response, env1) =>
      match signResponse nowSign response (dappAuthenticator env1) with
      | (Normal sr, _) =>
          (Normal tt,
           {| dappAuthenticator := dappAuthenticator env1;
              window := window env1;
              trace := trace env1 ++ [PostMessage (Signed sr)] |})
      | (Throw e, _) => (Throw e, env1)
      end
  | (Throw e, env1) => (Throw e, env1)
  end.
Proof.
  intros Hvalid Hex Hsecret Hmiss Hverify req env0.
  rewrite (handleSecureMessage_authenticated _ _ _ _ _ auth') by done.
  fold req env0. unfold bind at 1.
  destruct (processWalletRequest req env0) as [[response|e] env1]; [|done].
  unfold handleSecureMessage_resume, bind. rewrite createSecureResponse_eq.
  by destruct (signResponse nowSign response (dappAuthenticator env1)) as [[sr|e] ?].
Qed.


(** C4, as the code has it.  A message that carries a requestId, has the
    action EXCHANGE_SHARED_SECRET and brings a non-empty widgetSecret is
    handled without authentication, with or without a secret installed:
    the secret is installed and the callback, if there is one, is called with
    it.  When there is no callback, or the callback returns, the unsigned
    acknowledgment with the same requestId is posted; when the callback
    throws, the secret stays installed, nothing is posted, and [onmessage]
    swallows the error. *)
Theorem exchange_installs_secret options nowVerify nowSign m rid w env :
  in_requestId m = Some rid → truthy_string rid = true →
  in_action m = Some EXCHANGE_SHARED_SECRET →
  in_widgetSecret m = Some w → truthy_string w = true →
  (opt_onSharedSecretReceived options = None →
   handleSecureMessage options nowVerify nowSign (Object m) env =
   (Normal tt,
    {| dappAuthenticator := setSharedSecret w (dappAuthenticator env);
       window := window env;
       trace := trace env ++ [PostMessage (Unsigned (ackResponse rid))] |}))
  ∧ (∀ callback,
       opt_onSharedSecretReceived options = Some callback →
       callback w = Normal tt →
       handleSecureMessage options nowVerify nowSign (Object m) env =
       (Normal tt,
        {| dappAuthenticator := setSharedSecret w (dappAuthenticator env);
           window := window env;
           trace := trace env
                    ++ [ SharedSecretReceived w;
                         PostMessage (Unsigned (ackResponse rid)) ] |}))
  ∧ (∀ callback error,
       opt_onSharedSecretReceived options = Some callback →
       callback w = Throw error →
       handleSecureMessage options nowVerify nowSign (Object m) env =
       (Throw error,
        {| dappAuthenticator := setSharedSecret w (dappAuthenticator env);
           window := window env;
           trace := trace env ++ [SharedSecretReceived w] |})
       ∧ onmessage options nowVerify nowSign (Object m) env =
         (Normal tt,
          {| dappAuthenticator := setSharedSecret w (dappAuthenticator env);
             window := window env;
             trace := trace env ++ [SharedSecretReceived w] |}))
  ∧ sharedSecret (setSharedSecret w (dappAuthenticator env)) = w
  ∧ usedNonces (setSharedSecret w (dappAuthenticator env)) = ∅
  ∧ resp_requestId (ackResponse rid) = rid
  ∧ resp_success (ackResponse rid) = true.
Proof.
  intros Hrid Htruthy Haction Hw Hwt.
  pose proof (handleSecureMessage_exchange options nowVerify nowSign m rid w env
                Hrid Htruthy Haction Hw Hwt) as Hrun.
  split; [|split; [|split; [|done]]].
  - intros Hnone. by rewrite Hnone in Hrun.
  - intros callback Hsome Hreturns. by rewrite Hsome, Hreturns in Hrun.
  - intros callback error Hsome Hthrows. rewrite Hsome, Hthrows in Hrun.
    split; [done|]. by rewrite onmessage_eq, Hrun.
Qed.

(** C6, as the code has it.  With a secret installed, a message that is not
    an object with a requestId, or that is not a secret exchange and either
    has no timestamp, nonce or signature or fails
    [verifyIncomingMessage], is dropped: nothing is posted, and nothing else
    changes either. *)
Theorem silent_drop options nowVerify nowSign data env :
  truthy_string (sharedSecret (dappAuthenticator env)) = true →
  invalidFormat data = true
  ∨ (∃ m, data = Object m
          ∧ isSecretExchange m = false
          ∧ (missingAuthenticationFields m = true
             ∨ fst (verifyIncomingMessage nowVerify (asAuthenticatedMessage m)
                      (dappAuthenticator env)) = Normal false)) →
  handleSecureMessage options nowVerify nowSign data env = (Normal tt, env).
Proof.
  intros Hsecret [Hinvalid|(m & -> & Hex & Hbad)].
  - by apply handleSecureMessage_invalid.
  - by apply handleSecureMessage_unauthenticated.
Qed.

(** C7. Without a secret [signResponse] throws the error that no secret is
    configured, the error goes through [createSecureResponse] to
    [handleSecureMessage], and nothing is posted.  With a secret, what is
    serialized is the object of the requestId, success, data and error of
    the response and the timestamp, in that order; the MAC is taken of that
    string under the installed secret.  When the serialization or the MAC
    throws, so does [signResponse], and nothing is posted.  Otherwise the
    result has the four fields of the response, the timestamp and, as its
    signature, the MAC in hexadecimal, and that is what is posted. *)
Theorem signResponse_needs_secret now response env :
  (truthy_string (sharedSecret (dappAuthenticator env)) = false →
   signResponse now response (dappAuthenticator env)
   = (Throw (Error "🔒 No shared secret configured for signing response"),
      dappAuthenticator env)
   ∧ createSecureResponse now response env
     = (Throw (Error "🔒 No shared secret configured for signing response"), env)
   ∧ handleSecureMessage_resume now response env
     = (Throw (Error "🔒 No shared secret configured for signing response"), env))
  ∧ (truthy_string (sharedSecret (dappAuthenticator env)) = true →
     let serialized :=
       JSON_stringify
         (JsObj [ ("requestId", JsStr (resp_requestId response));
                  ("success", JsBool (resp_success response));
                  ("data", resp_data response);
                  ("error", resp_error response);
                  ("timestamp", JsNum now) ]) in
     let mac messageString :=
       subtle_HMAC_SHA256
         (list_byte_of_string (sharedSecret (dappAuthenticator env)))
         (list_byte_of_string messageString) in
     (∀ error,
        serialized = Throw error
        ∨ (∃ messageString,
             serialized = Normal messageString ∧ mac messageString = Throw error) →
        signResponse now response (dappAuthenticator env)
        = (Throw error, dappAuthenticator env)
        ∧ handleSecureMessage_resume now response env = (Throw error, env))
     ∧ (∀ messageString bytes,
          serialized = Normal messageString →
          mac messageString = Normal bytes →
          ∃ sr,
            signResponse now response (dappAuthenticator env)
            = (Normal sr, dappAuthenticator env)
            ∧ sr_requestId sr = resp_requestId response
            ∧ sr_success sr = resp_success response
            ∧ sr_data sr = resp_data response
            ∧ sr_error sr = resp_error response
            ∧ sr_timestamp sr = now
            ∧ sr_signature sr = hexString bytes
            ∧ handleSecureMessage_resume now response env =
              (Normal tt,
               {| dappAuthenticator := dappAuthenticator env;
                  window := window env;
                  trace := trace env ++ [PostMessage (Signed sr)] |}))).
Proof.
  split.
  - intros Hsecret.
    assert (signResponse now response (dappAuthenticator env)
            = (Throw (Error "🔒 No shared secret configured for signing response"),
               dappAuthenticator env)) as Hsign
      by (rewrite signResponse_eq; by rewrite Hsecret).
    split; [exact Hsign|]. split.
    + by rewrite createSecureResponse_eq, Hsign.
    + unfold handleSecureMessage_resume, bind.
      by rewrite createSecureResponse_eq, Hsign.
  - intros Hsecret serialized mac. subst serialized mac. cbv beta.
    change (JsObj [ ("requestId", JsStr (resp_requestId response));
                    ("success", JsBool (resp_success response));
                    ("data", resp_data response);
                    ("error", resp_error response);
                    ("timestamp", JsNum now) ])
      with (responseData response now).
    split.
    + intros error Hthrows.
      assert (signResponse now response (dappAuthenticator env)
              = (Throw error, dappAuthenticator env)) as Hsign.
      { rewrite signResponse_eq, Hsecret. cbn [negb]. unfold computeHMAC.
        destruct Hthrows as [-> | (ms & -> & ->)]; done. }
      split; [exact Hsign|].
      unfold handleSecureMessage_resume, bind.
      by rewrite createSecureResponse_eq, Hsign.
    + intros ms bytes Hjson Hmac.
      exists (signedResponse response now (hexString bytes)).
      assert (signResponse now response (dappAuthenticator env)
              = (Normal (signedResponse response now (hexString bytes)),
                 dappAuthenticator env)) as Hsign.
      { rewrite signResponse_eq, Hsecret, Hjson. cbn [negb]. unfold computeHMAC.
        by rewrite Hmac. }
      split; [exact Hsign|]. repeat split.
      unfold handleSecureMessage_resume, bind.
      by rewrite createSecureResponse_eq, Hsign.
Qed.

(** C9, as the code has it.  A signed response to a validated request
    carries the requestId of the request.  Its error is a value exactly when
    success is false, and is undefined when success is true.  Its data is
    null when success is false, and is what the action returned, whatever
    that is, when success is true. *)
Theorem signed_response_fields req env response env1 now env1' sr env2 :
  processWalletRequest req env = (Normal response, env1) →
  createSecureResponse now response env1' = (Normal sr, env2) →
  sr_requestId sr = req_requestId req
  ∧ (present (sr_error sr) ↔ sr_success sr = false)
  ∧ (sr_success sr = false → sr_data sr = JsNull ∧ truthy (sr_error sr) = true)
  ∧ (sr_success sr = true →
     sr_error sr = JsUndefined
     ∧ walletAction req (snd (emit (ProcessWalletRequest req) env))
       = (Normal (sr_data sr), env1)).
Proof.
  intros Hprocess Hsign.
  rewrite createSecureResponse_eq in Hsign.
  destruct (signResponse now response (dappAuthenticator env1'))
    as [c auth] eqn:Hrun.
  cbn in Hsign. injection Hsign as -> <-.
  apply signResponse_fields in Hrun as (-> & -> & -> & -> & _).
  apply processWalletRequest_response in Hprocess
    as (Hid & [(Hs & He & Hw)|(Hs & Hd & He & _)]); rewrite Hs.
  - repeat split; try done; rewrite He; unfold present; try done.
  - repeat split; try done.
    unfold present. by destruct (resp_error response).
Qed.

(** *** The handler and the ledger *)

Lemma keeps_ret {A} (a : A) : keepsAuthenticator (ret a).
Proof. by intros env. Qed.

Lemma keeps_throw {A} e : keepsAuthenticator (throw (A := A) e).
Proof. by intros env. Qed.

Lemma keeps_liftC {A} (c : Completion A) : keepsAuthenticator (liftC c).
Proof. by intros env. Qed.

Lemma keeps_gets {A} (f : Env → A) : keepsAuthenticator (gets f).
Proof. by intros env. Qed.

Lemma keeps_emit e : keepsAuthenticator (emit e).
Proof. by intros env. Qed.

Lemma keeps_setWalletDisconnected b : keepsAuthenticator (setWalletDisconnected b).
Proof. by intros env. Qed.

Lemma keeps_bind {A B} (m : Op Env A) (k : A → Op Env B) :
  keepsAuthenticator m → (∀ a, keepsAuthenticator (k a)) →
  keepsAuthenticator (bind m k).
Proof.
  intros Hm Hk env. unfold bind. specialize (Hm env).
  destruct (m env) as [[a|e] env1]; cbn [snd] in *; [|done].
  by rewrite Hk.
Qed.

Lemma keeps_tryCatch {A} (m : Op Env A) (handler : JsVal → Op Env A) :
  keepsAuthenticator m → (∀ e, keepsAuthenticator (handler e)) →
  keepsAuthenticator (tryCatch m handler).
Proof.
  intros Hm Hh env. unfold tryCatch. specialize (Hm env).
  destruct (m env) as [[a|e] env1]; cbn [snd] in *; [done|].
  by rewrite Hh.
Qed.

Ltac keeps :=
  repeat first
    [ apply keeps_ret | apply keeps_throw | apply keeps_liftC | apply keeps_gets
    | apply keeps_emit | apply keeps_setWalletDisconnected
    | apply keeps_bind; [|intros ?] | apply keeps_tryCatch; [|intros ?]
    | match goal with
      | |- keepsAuthenticator (if ?c then _ else _) => destruct c
      | |- keepsAuthenticator (match ?c with Some _ => _ | None => _ end) => destruct c
      end ].

(** The wallet operations leave the authenticator alone. *)
Lemma processWalletRequest_keeps req : keepsAuthenticator (processWalletRequest req).
Proof.
  unfold processWalletRequest, walletAction, getEthereumProvider, request,
    dispatchEvent.
  keeps.
Qed.

Lemma handleSecureMessage_resume_keeps now response :
  keepsAuthenticator (handleSecureMessage_resume now response).
Proof.
  intros env. unfold handleSecureMessage_resume, bind.
  rewrite createSecureResponse_eq.
  by destruct (fst (signResponse now response (dappAuthenticator env))).
Qed.

(** What handling one message does to the authenticator: nothing, or the
    installation of the secret of an exchange, or the recording of one nonce.
    [cleanupOldNonces] is not among them. *)
Lemma handleSecureMessage_authenticator options nowVerify nowSign data env :
  let this := dappAuthenticator env in
  let this' :=
    dappAuthenticator (snd (handleSecureMessage options nowVerify nowSign data env)) in
  this' = this
  ∨ (∃ secret, this' = setSharedSecret secret this)
  ∨ (∃ n, (n ∉ usedNonces this) ∧ this' = addNonce n this).
Proof.
  intros this this'. subst this this'.
  destruct (invalidFormat data) eqn:Hvalid.
  { left. by rewrite handleSecureMessage_invalid. }
  destruct data as [p|m]; [by rewrite invalidFormat_NotObject in Hvalid|].
  assert (∃ rid, in_requestId m = Some rid ∧ truthy_string rid = true)
    as (rid & Hrid & Htruthy).
  { unfold invalidFormat, truthy_option_string in Hvalid.
    destruct (in_requestId m) as [rid|]; [|done].
    exists rid. split; [done|]. by apply negb_false_iff in Hvalid. }
  destruct (isSecretExchange m) eqn:Hex.
  { apply isSecretExchange_true in Hex as (Haction & w & Hw & Hwt).
    right; left. exists w.
    by rewrite (handleSecureMessage_exchange_installs _ _ _ _ rid w). }
  destruct (truthy_string (sharedSecret (dappAuthenticator env))) eqn:Hsecret;
    [|left; by rewrite (handleSecureMessage_unkeyed _ _ _ _ rid)].
  destruct (missingAuthenticationFields m) eqn:Hmiss.
  { left. rewrite handleSecureMessage_unauthenticated; auto. }
  destruct (verifyIncomingMessage_returns nowVerify (asAuthenticatedMessage m)
              (dappAuthenticator env)) as ([|] & auth' & Hrun).
  - right; right.
    rewrite (handleSecureMessage_authenticated _ _ _ _ _ auth') by done.
    apply verifyIncomingMessage_true in Hrun as (_ & _ & Hfresh & _ & ->).
    eexists. split; [exact Hfresh|].
    rewrite (keeps_bind _ _ (processWalletRequest_keeps _)
               (handleSecureMessage_resume_keeps nowSign)).
    done.
  - left. rewrite handleSecureMessage_unauthenticated; auto.
    right. by rewrite Hrun.
Qed.

(** C8, as the code has it.  [cleanupOldNonces] empties a ledger of more than
    1000 nonces and leaves any other as it is, so the ledger holds at most
    1000 nonces right after a cleanup.  Handling a message never runs it:
    the ledger is kept, or emptied by the exchange of a secret, or grows by
    the nonce of the message that was accepted. *)
Theorem ledger_cleanup_and_growth this :
  ((1000 < size (usedNonces this))%nat →
   usedNonces (cleanupOldNonces this) = ∅
   ∧ sharedSecret (cleanupOldNonces this) = sharedSecret this)
  ∧ ((size (usedNonces this) ≤ 1000)%nat → cleanupOldNonces this = this)
  ∧ (size (usedNonces (cleanupOldNonces this)) ≤ 1000)%nat
  ∧ (∀ now message this',
       verifyIncomingMessage now message this = (Normal true, this') →
       size (usedNonces this') = S (size (usedNonces this)))
  ∧ (∀ options nowVerify nowSign data env,
       dappAuthenticator env = this →
       let this' :=
         dappAuthenticator
           (snd (handleSecureMessage options nowVerify nowSign data env)) in
       this' = this
       ∨ (∃ secret, this' = setSharedSecret secret this)
       ∨ (∃ n, (n ∉ usedNonces this) ∧ this' = addNonce n this
               ∧ size (usedNonces this') = S (size (usedNonces this)))).
Proof.
  destruct (cleanupOldNonces_size this) as (Hbig & Hsmall & Hbound).
  repeat split; try done; try (by apply Hbig).
  - intros now message this' H.
    apply verifyIncomingMessage_true in H as (_ & _ & Hn & _ & ->).
    by apply size_addNonce.
  - intros options nowVerify nowSign data env <- this'. subst this'.
    destruct (handleSecureMessage_authenticator options nowVerify nowSign data env)
      as [H|[H|(n & Hn & H)]]; [by left|by right; left|].
    right; right. exists n. rewrite H. repeat split; try done.
    by apply size_addNonce.
Qed.

End HandlerProperties.


(** ** The scenarios, run *)

Section Runs.

Import Scenario.

Example sha256_abc :
  hexString (map Reference.byte_of_Z
               (Reference.sha256 (map Reference.Z_of_byte (list_byte_of_string "abc"))))
  = "ba7816bf8f01cfea414140de5dae2223b00361a396177a9cb410ff61f20015ad".
Proof. vm_compute. reflexivity. Qed.

Example sha256_empty :
  hexString (map Reference.byte_of_Z (Reference.sha256 []))
  = "e3b0c44298fc1c149afbf4c8996fb92427ae41e4649b934ca495991b7852b855".
Proof. vm_compute. reflexivity. Qed.

(** RFC 4231, test case 2. *)
Example hmac_rfc4231_2 :
  computeHMAC (platform := browser) "what do ya want for nothing?" "Jefe"
  = Normal "5bdcc146bf60754e6a042426089575c75a003f089d2739839dec58b964ec3843".
Proof. vm_compute. reflexivity. Qed.

Example keyedPage_trace :
  trace keyedPage
  = [SharedSecretReceived abc; PostMessage (Unsigned (ackResponse "0"))]
  ∧ sharedSecret (dappAuthenticator keyedPage) = abc.
Proof. vm_compute. done. Qed.

(** The scenario of the specification: the request is answered once, and
    not when it is sent again. *)
Example getChainId_once :
  trace (receive t0 (Object getChainId) keyedPage)
  = trace keyedPage
    ++ [ ProcessWalletRequest
           (stripAuthenticationFields (asAuthenticatedMessage getChainId));
         ProviderRequest (method "eth_chainId");
         PostMessage (Signed getChainIdAnswer) ]
  ∧ trace (receive t0 (Object getChainId) (receive t0 (Object getChainId) keyedPage))
    = trace (receive t0 (Object getChainId) keyedPage).
Proof. vm_compute. done. Qed.

Lemma signed_correct secret m :
  correctlySigned (platform := browser) secret (signed secret m).
Proof. unfold correctlySigned. eexists. split; reflexivity. Qed.

Lemma nonce_numbered_length i : String.length (nonce (numbered i)) = i.
Proof.
  unfold numbered. cbn [nonce]. induction i as [|i IH]; [done|].
  cbn [repeat string_of_list_ascii String.length]. by rewrite IH.
Qed.

(** Each numbered request is accepted in its turn. *)
Lemma burst_invariant this n :
  sharedSecret this = abc → maxMessageAge this = 300000 → usedNonces this = ∅ →
  sharedSecret (burst n this) = abc
  ∧ maxMessageAge (burst n this) = 300000
  ∧ size (usedNonces (burst n this)) = n
  ∧ (∀ s, s ∈ usedNonces (burst n this) → (String.length s < n)%nat)
  ∧ ∀ calls,
      rtc (AuthStep (platform := browser))
        {| authenticator := this; awaited := calls |}
        {| authenticator := burst n this; awaited := calls |}.
Proof.
  intros Hsecret Hage Hempty. induction n as [|n (IHs & IHa & IHsize & IHin & IHrtc)].
  - cbn [burst]. rewrite Hempty. repeat split; try done.
  - assert (nonce (signed abc (numbered n)) ∉ usedNonces (burst n this)) as Hfresh.
    { intros Hin. apply IHin in Hin.
      change (nonce (signed abc (numbered n))) with (nonce (numbered n)) in Hin.
      rewrite nonce_numbered_length in Hin. lia. }
    assert (verify t0 (signed abc (numbered n)) (burst n this)
            = (Normal true, addNonce (nonce (signed abc (numbered n))) (burst n this)))
      as Hrun.
    { apply verifyIncomingMessage_true. rewrite IHs, IHa.
      repeat split; try done. apply signed_correct. }
    change (burst (S n) this)
      with (snd (verify t0 (signed abc (numbered n)) (burst n this))).
    rewrite Hrun. cbn [snd]. repeat split; try done.
    + rewrite size_addNonce by done. by rewrite IHsize.
    + intros s. cbn [usedNonces addNonce]. rewrite elem_of_union, elem_of_singleton.
      intros [->|Hs].
      * change (nonce (signed abc (numbered n))) with (nonce (numbered n)).
        rewrite nonce_numbered_length. lia.
      * apply IHin in Hs. lia.
    + intros calls. eapply rtc_r; [exact (IHrtc calls)|]. by eapply step_verify.
Qed.

(** The secret is installed, the signed request of the specification is
    accepted, and a minute later it is not. *)
Lemma verify_accepts_exactly_once_witness :
  ∃ this',
    verify t0 (asAuthenticatedMessage getChainId) keyed = (Normal true, this')
    ∧ "n1" ∈ usedNonces this'
    ∧ verify (t0 + 60000) (asAuthenticatedMessage getChainId) this'
      = (Normal false, this').
Proof.
  apply (verify_accepts_exactly_once (platform := browser)
           t0 (t0 + 60000) (asAuthenticatedMessage getChainId) keyed).
  - reflexivity.
  - eexists. split; [reflexivity | vm_compute; reflexivity].
  - vm_compute. discriminate.
  - apply not_elem_of_empty.
Defined.

(** The same request, five minutes and one millisecond late. *)
Lemma verify_rejects_stale_witness :
  verify (t0 + 300001) (asAuthenticatedMessage getChainId) keyed
  = (Normal false, keyed).
Proof.
  apply (verify_rejects_stale (platform := browser)
           (t0 + 300001) (asAuthenticatedMessage getChainId) keyed).
  vm_compute. reflexivity.
Defined.



(** The exchange of the secret ["abc"] on a channel that has one already,
    with a callback that returns and with one that throws. *)
Lemma exchange_installs_secret_witness :
  handleSecureMessage (platform := browser) options t0 t0
    (Object (exchange "8" (Some abc))) keyedPage
  = (Normal tt,
     {| dappAuthenticator := setSharedSecret abc (dappAuthenticator keyedPage);
        window := window keyedPage;
        trace := trace keyedPage
                 ++ [ SharedSecretReceived abc;
                      PostMessage (Unsigned (ackResponse "8")) ] |})
  ∧ onmessage (platform := browser) throwingOptions t0 t0
      (Object (exchange "8" (Some abc))) keyedPage
    = (Normal tt,
       {| dappAuthenticator := setSharedSecret abc (dappAuthenticator keyedPage);
          window := window keyedPage;
          trace := trace keyedPage ++ [SharedSecretReceived abc] |}).
Proof.
  split.
  - apply (proj1 (proj2 (exchange_installs_secret (platform := browser) options t0 t0
                           (exchange "8" (Some abc)) "8" abc keyedPage
                           eq_refl eq_refl eq_refl eq_refl eq_refl))
             (fun secret => Normal tt)).
    + reflexivity.
    + reflexivity.
  - apply (proj1 (proj2 (proj2 (exchange_installs_secret (platform := browser)
                                   throwingOptions t0 t0
                                   (exchange "8" (Some abc)) "8" abc keyedPage
                                   eq_refl eq_refl eq_refl eq_refl eq_refl)))
             (fun secret => Throw (Error "callback failed")) (Error "callback failed")).
    + reflexivity.
    + reflexivity.
Defined.

(** An exchange message whose widgetSecret is the empty string, sent to a
    channel that has the secret ["abc"]: the secret stays, the callback is
    not called, and nothing is posted. *)
Lemma exchange_without_secret_ignored :
  in_action (exchange "9" (Some EmptyString)) = Some EXCHANGE_SHARED_SECRET
  ∧ sharedSecret (dappAuthenticator keyedPage) = abc
  ∧ handleSecureMessage (platform := browser) options t0 t0
      (Object (exchange "9" (Some EmptyString))) keyedPage
    = (Normal tt, keyedPage).
Proof. vm_compute. done. Qed.

(** A request signed under ["abd"] is rejected once ["abc"] is installed. *)
Lemma rotation_rejects_old_signatures_witness :
  verify t0 (asAuthenticatedMessage getChainId_abd)
    (setSharedSecret abc new_MessageAuthenticator)
  = (Normal false, setSharedSecret abc new_MessageAuthenticator).
Proof.
  apply (proj1 (proj2 (rotation_rejects_old_signatures (platform := browser) abc t0
                  (asAuthenticatedMessage getChainId_abd) new_MessageAuthenticator))).
  intros (messageString & Hjson & Hmac).
  injection Hjson as <-. vm_compute in Hmac. discriminate Hmac.
Defined.

(** The request of the specification is signed under ["abc"].  The widget
    then sends the secret ["abc"] followed by a NUL character, which is
    another secret, is installed, and under which the request is accepted
    all the same: HMAC pads a short key with zero bytes. *)
Lemma rotation_accepts_padded_secret :
  abc_nul ≠ abc
  ∧ fst (verify t0 (asAuthenticatedMessage getChainId) keyed) = Normal true
  ∧ sharedSecret
      (dappAuthenticator (receive t0 (Object (exchange "8" (Some abc_nul))) keyedPage))
    = abc_nul
  ∧ fst (verify t0 (asAuthenticatedMessage getChainId)
           (dappAuthenticator
              (receive t0 (Object (exchange "8" (Some abc_nul))) keyedPage)))
    = Normal true.
Proof. split; [discriminate|]. vm_compute. done. Qed.

(** A request with a signature that is not the one of the installed secret
    is dropped. *)
Lemma silent_drop_witness :
  handleSecureMessage (platform := browser) options t0 t0 (Object getChainId_abd) keyedPage
  = (Normal tt, keyedPage).
Proof.
  apply (silent_drop (platform := browser) options t0 t0 (Object getChainId_abd) keyedPage).
  - reflexivity.
  - right. exists getChainId_abd. split; [reflexivity|]. split; [reflexivity|].
    right. vm_compute. reflexivity.
Defined.

(** With the secret ["abc"] installed, an exchange message, which has no
    timestamp, no nonce and no signature, is answered with the
    acknowledgment. *)
Lemma exchange_answered_without_authentication :
  sharedSecret (dappAuthenticator keyedPage) = abc
  ∧ in_timestamp (exchange "7" (Some "s")) = None
  ∧ in_nonce (exchange "7" (Some "s")) = None
  ∧ in_signature (exchange "7" (Some "s")) = None
  ∧ trace (snd (handleSecureMessage (platform := browser) options t0 t0
                  (Object (exchange "7" (Some "s"))) keyedPage))
    = trace keyedPage
      ++ [SharedSecretReceived "s"; PostMessage (Unsigned (ackResponse "7"))].
Proof. vm_compute. done. Qed.

(** Signing on the page where no secret was installed, and on the one where
    ["abc"] was. *)
Lemma signResponse_needs_secret_witness :
  (signResponse (platform := browser) t0 (ackResponse "1") (dappAuthenticator walletPage)
   = (Throw (Error "🔒 No shared secret configured for signing response"),
      dappAuthenticator walletPage)
   ∧ createSecureResponse (platform := browser) t0 (ackResponse "1") walletPage
     = (Throw (Error "🔒 No shared secret configured for signing response"), walletPage)
   ∧ handleSecureMessage_resume (platform := browser) t0 (ackResponse "1") walletPage
     = (Throw (Error "🔒 No shared secret configured for signing response"), walletPage))
  ∧ signResponse (platform := browser) t0 unsupportedResponse (dappAuthenticator keyedPage)
    = (Normal unsupportedAnswer, dappAuthenticator keyedPage)
  ∧ handleSecureMessage_resume (platform := browser) t0 unsupportedResponse keyedPage
    = (Normal tt,
       {| dappAuthenticator := dappAuthenticator keyedPage;
          window := window keyedPage;
          trace := trace keyedPage ++ [PostMessage (Signed unsupportedAnswer)] |}).
Proof.
  split.
  - apply (proj1 (signResponse_needs_secret (platform := browser) t0 (ackResponse "1")
                    walletPage)).
    reflexivity.
  - destruct (proj2 (proj2 (signResponse_needs_secret (platform := browser) t0
                              unsupportedResponse keyedPage) eq_refl)
                (default "undefined" (Reference.serialize (responseData unsupportedResponse t0)))
                (map Reference.byte_of_Z
                   (Reference.hmac
                      (map Reference.Z_of_byte (list_byte_of_string abc))
                      (map Reference.Z_of_byte
                         (list_byte_of_string
                            (default "undefined"
                               (Reference.serialize
                                  (responseData unsupportedResponse t0)))))))
                ltac:(reflexivity) ltac:(vm_compute; reflexivity))
      as (sr & Hsign & Hid & Hsuccess & Hdata & Herror & Htime & Hsignature & Hposted).
    assert (sr = unsupportedAnswer) as ->.
    { destruct sr.
      cbn [sr_requestId sr_success sr_data sr_error sr_timestamp sr_signature]
        in Hid, Hsuccess, Hdata, Herror, Htime, Hsignature.
      rewrite Hid, Hsuccess, Hdata, Herror, Htime, Hsignature.
      vm_compute. reflexivity. }
    split; assumption.
Defined.

(** A cleanup of the empty ledger, and the size after the first request. *)
Lemma ledger_cleanup_and_growth_witness :
  cleanupOldNonces keyed = keyed
  ∧ size (usedNonces (addNonce "n1" keyed)) = 1%nat.
Proof.
  pose proof (ledger_cleanup_and_growth (platform := browser) keyed)
    as (_ & Hsmall & _ & Hgrow & _).
  split.
  - apply Hsmall. cbn [usedNonces keyed setSharedSecret]. rewrite size_empty. lia.
  - rewrite (Hgrow t0 (asAuthenticatedMessage getChainId) (addNonce "n1" keyed)).
    + cbn [usedNonces keyed setSharedSecret]. by rewrite size_empty.
    + apply verifyIncomingMessage_true. repeat split.
      * vm_compute. discriminate.
      * apply not_elem_of_empty.
      * eexists. split; [reflexivity | vm_compute; reflexivity].
Defined.

(** The secret ["abc"] is installed, the host calls the cleanup, and 1001
    requests are accepted: the ledger holds 1001 nonces, until the host
    calls the cleanup again. *)
Lemma ledger_exceeds_1000 :
  reachable (platform := browser) flooded
  ∧ size (usedNonces flooded) = 1001%nat
  ∧ ¬ (size (usedNonces flooded) ≤ 1000)%nat.
Proof.
  assert (cleanupOldNonces keyed = keyed) as Hclean.
  { unfold cleanupOldNonces. cbn [usedNonces keyed setSharedSecret].
    by rewrite size_empty. }
  destruct (burst_invariant keyed 1001 eq_refl eq_refl eq_refl)
    as (_ & _ & Hsize & _ & Hrtc).
  unfold flooded. rewrite Hclean. split; [|split; [done|lia]].
  exists []. eapply rtc_l; [|exact (Hrtc [])].
  apply (step_setSharedSecret (platform := browser) abc new_MessageAuthenticator []).
Qed.

(** The answer to the request with the unsupported action. *)
Lemma signed_response_fields_witness :
  sr_requestId unsupportedAnswer = "2"
  ∧ (present (sr_error unsupportedAnswer) ↔ sr_success unsupportedAnswer = false)
  ∧ (sr_success unsupportedAnswer = false →
     sr_data unsupportedAnswer = JsNull ∧ truthy (sr_error unsupportedAnswer) = true).
Proof.
  assert (processWalletRequest (platform := browser)
            (stripAuthenticationFields (asAuthenticatedMessage unsupported)) keyedPage
          = (Normal unsupportedResponse,
             snd (processWalletRequest (platform := browser)
                    (stripAuthenticationFields (asAuthenticatedMessage unsupported))
                    keyedPage))) as Hprocess
    by (vm_compute; reflexivity).
  assert (createSecureResponse (platform := browser) t0 unsupportedResponse keyedPage
          = (Normal unsupportedAnswer, keyedPage)) as Hsign
    by (vm_compute; reflexivity).
  destruct (signed_response_fields (platform := browser) _ _ _ _ _ _ _ _ Hprocess Hsign)
    as (Hid & Herror & Hfailure & _).
  exact (conj Hid (conj Herror Hfailure)).
Defined.

(** The answer to a request that failed has success false and data null,
    which is a value; the answer to a request that the provider resolved
    with [undefined] has success true and no data. *)
Lemma data_present_on_failure :
  (last (trace (receive t0 (Object unsupported) keyedPage))
   = Some (PostMessage (Signed unsupportedAnswer))
   ∧ sr_success unsupportedAnswer = false
   ∧ present (sr_data unsupportedAnswer)
   ∧ ¬ presentIffSuccess unsupportedAnswer)
  ∧ (last (trace (receive t0 (Object getChainId) silentPage))
     = Some (PostMessage (Signed silentAnswer))
     ∧ sr_success silentAnswer = true
     ∧ ¬ present (sr_data silentAnswer)
     ∧ ¬ presentIffSuccess silentAnswer).
Proof.
  split.
  - split; [vm_compute; reflexivity|]. split; [done|]. split; [done|].
    intros [[Hdata _] _]. by specialize (Hdata ltac:(done)).
  - split; [vm_compute; reflexivity|]. split; [done|].
    split; [by intros H|].
    intros [[_ Hdata] _]. by apply (Hdata eq_refl).
Qed.

(** The late request leaves the authenticator as it was. *)
Lemma verify_false_keeps_state_witness :
  snd (verify (t0 + 300001) (asAuthenticatedMessage getChainId) keyed) = keyed.
Proof.
  apply (proj2 (verify_false_keeps_state (platform := browser) (t0 + 300001)
                  (asAuthenticatedMessage getChainId) keyed)).
  vm_compute. reflexivity.
Defined.

End Runs.


(** ** More about the authenticator *)

Section AuthenticatorMore.

Context {platform : Platform}.

(** X1. [verifyIncomingMessage] returns true only for a message that is
    correctly signed under the installed, non-empty secret, whose timestamp
    is within [maxMessageAge] of the clock, bounds included, and whose nonce
    was not in the ledger; all it changes is the ledger, by that nonce. *)
Theorem verify_true_only_if now message this this' :
  verifyIncomingMessage now message this = (Normal true, this') →
  sharedSecret this ≠ EmptyString
  ∧ - maxMessageAge this <= now - timestamp message <= maxMessageAge this
  ∧ (nonce message ∉ usedNonces this)
  ∧ correctlySigned (sharedSecret this) message
  ∧ sharedSecret this' = sharedSecret this
  ∧ maxMessageAge this' = maxMessageAge this
  ∧ usedNonces this' = {[ nonce message ]} ∪ usedNonces this.
Proof.
  intros (Hs & Hage & Hn & Hsig & ->)%verifyIncomingMessage_true.
  repeat split; try done; try lia.
  intros Hempty. by rewrite Hempty in Hs.
Qed.

Lemma settledStep_ledger_needs_secret c c' :
  settledStep c c' → awaited c = [] →
  (sharedSecret (authenticator c) = EmptyString → usedNonces (authenticator c) = ∅) →
  sharedSecret (authenticator c') = EmptyString → usedNonces (authenticator c') = ∅.
Proof.
  intros [Hstep Hsettled] Hnone Hinv.
  destruct Hstep as [now message this b this' calls Hrun| | | | |];
    cbn [authenticator awaited] in *.
  - destruct b.
    + apply verifyIncomingMessage_true in Hrun as (Hs & _ & _ & _ & ->).
      cbn. intros Hempty. by rewrite Hempty in Hs.
    + apply verifyIncomingMessage_false in Hrun. by subst.
  - discriminate Hsettled.
  - by destruct before.
  - done.
  - done.
  - unfold cleanupOldNonces. by destruct (1000 <? size (usedNonces this))%nat.
Qed.

(** X2. As long as every call of [verifyIncomingMessage] settles before the
    next call is made, an authenticator without a secret has an empty ledger.
    A call that is suspended at the [await] and overtaken by
    [setSharedSecret] breaks this: it was accepted under the old secret, and
    when it resumes it adds its nonce to the ledger that [setSharedSecret]
    has emptied, which then holds that nonce under the new secret, the empty
    one included. *)
Theorem ledger_needs_secret_unless_overtaken this calls now message secret :
  (rtc settledStep started {| authenticator := this; awaited := [] |} →
   sharedSecret this = EmptyString → usedNonces this = ∅)
  ∧ (truthy_string (sharedSecret this) = true →
     Z.abs (now - timestamp message) <= maxMessageAge this →
     nonce message ∉ usedNonces this →
     correctlySigned (sharedSecret this) message →
     rtc AuthStep
       {| authenticator := this; awaited := calls |}
       {| authenticator := addNonce (nonce message) (setSharedSecret secret this);
          awaited := calls |}
     ∧ sharedSecret (addNonce (nonce message) (setSharedSecret secret this)) = secret
     ∧ usedNonces (addNonce (nonce message) (setSharedSecret secret this))
       = {[ nonce message ]}).
Proof.
  split.
  - intros Hrun.
    assert (awaited {| authenticator := this; awaited := [] |} = []
            ∧ (sharedSecret (authenticator {| authenticator := this; awaited := [] |})
               = EmptyString →
               usedNonces (authenticator {| authenticator := this; awaited := [] |}) = ∅))
      as [_ Hinv]; [|exact Hinv].
    revert Hrun.
    apply (rtc_ind_r
             (λ c, awaited c = []
                   ∧ (sharedSecret (authenticator c) = EmptyString →
                      usedNonces (authenticator c) = ∅))); [done|].
    intros c c' _ Hstep [Hnone Hinv]. split; [apply Hstep|].
    by apply (settledStep_ledger_needs_secret c).
  - intros Hsecret Hage Hfresh Hsigned. split; [|split; [done|]].
    + eapply rtc_l; [by apply (step_verify_awaits now message)|].
      eapply rtc_l; [apply (step_setSharedSecret secret)|].
      apply rtc_once.
      apply (step_verify_resumes (nonce message) (setSharedSecret secret this) [] calls).
    + cbn [usedNonces addNonce setSharedSecret]. by rewrite union_empty_r_L.
Qed.

(** X3. Installing a secret forgets the nonces, also when it is the secret
    that was installed already: a message that was accepted, and is rejected
    as a replay, is accepted again after [setSharedSecret] with the same
    secret, as long as its timestamp is within [maxMessageAge]. *)
Theorem setSharedSecret_reopens_replay now later secret message this this' :
  verifyIncomingMessage now message this = (Normal true, this') →
  secret = sharedSecret this →
  Z.abs (later - timestamp message) <= maxMessageAge this →
  verifyIncomingMessage later message this' = (Normal false, this')
  ∧ verifyIncomingMessage later message (setSharedSecret secret this')
    = (Normal true, addNonce (nonce message) (setSharedSecret secret this')).
Proof.
  intros (Hs & Hage & Hn & Hsig & ->)%verifyIncomingMessage_true -> Hlater. split.
  - apply verify_false_reasons. right; right; left.
    by apply elem_of_union_l, elem_of_singleton.
  - apply verifyIncomingMessage_true. cbn. repeat split; done.
Qed.

(** X4. [cleanupOldNonces] keeps a replay rejected while the ledger holds at
    most 1000 nonces; once it holds more, the cleanup empties it and a
    message that was accepted before is accepted again, as long as its
    timestamp is within [maxMessageAge]. *)
Theorem cleanup_reopens_replay now later message this this' :
  verifyIncomingMessage now message this = (Normal true, this') →
  Z.abs (later - timestamp message) <= maxMessageAge this →
  ((size (usedNonces this') ≤ 1000)%nat →
   verifyIncomingMessage later message (cleanupOldNonces this')
   = (Normal false, cleanupOldNonces this'))
  ∧ ((1000 < size (usedNonces this'))%nat →
     verifyIncomingMessage later message (cleanupOldNonces this')
     = (Normal true, addNonce (nonce message) (cleanupOldNonces this'))).
Proof.
  intros (Hs & Hage & Hn & Hsig & ->)%verifyIncomingMessage_true Hlater.
  destruct (cleanupOldNonces_size (addNonce (nonce message) this))
    as (Hbig & Hsmall & _).
  split.
  - intros Hle. rewrite (Hsmall Hle).
    apply verify_false_reasons. right; right; left.
    by apply elem_of_union_l, elem_of_singleton.
  - intros Hgt. destruct (Hbig Hgt) as [Hempty Hsecret].
    apply verifyIncomingMessage_true.
    rewrite Hempty, Hsecret. cbn [sharedSecret addNonce].
    repeat split; try done.
    unfold cleanupOldNonces. by destruct (1000 <? _)%nat.
Qed.

(** X5. [setMaxMessageAge] moves the age limit and nothing else: the secret
    and the ledger stay, so a replay is still rejected; a negative limit
    makes the authenticator reject every message. *)
Theorem setMaxMessageAge_only_moves_the_limit ageInMs now message this :
  sharedSecret (setMaxMessageAge ageInMs this) = sharedSecret this
  ∧ usedNonces (setMaxMessageAge ageInMs this) = usedNonces this
  ∧ (ageInMs < 0 →
     verifyIncomingMessage now message (setMaxMessageAge ageInMs this)
     = (Normal false, setMaxMessageAge ageInMs this))
  ∧ (nonce message ∈ usedNonces this →
     verifyIncomingMessage now message (setMaxMessageAge ageInMs this)
     = (Normal false, setMaxMessageAge ageInMs this)).
Proof.
  repeat split; try done.
  - intros Hneg. apply verify_false_reasons. right; left. cbn. lia.
  - intros Hin. apply verify_false_reasons. right; right; left. done.
Qed.

Lemma hexValue_hexDigit n : (n < 16)%N → hexValue (hexDigit n) = n.
Proof.
  intros Hn. destruct n as [|p]; [done|].
  do 4 (destruct p as [p|p|]; try lia; try done).
Qed.

Lemma unhex_hexByte b rest : unhex (hexByte b +:+ rest) = b :: unhex rest.
Proof.
  unfold hexByte. cbv zeta.
  change (unhex (String (hexDigit (Byte.to_N b / 16))
                   (String (hexDigit (Byte.to_N b mod 16)) rest)) = b :: unhex rest).
  cbn [unhex].
  pose proof (Byte.to_N_bounded b) as Hb.
  rewrite !hexValue_hexDigit.
  - replace (Byte.to_N b / 16 * 16 + Byte.to_N b mod 16)%N with (Byte.to_N b).
    + by rewrite Byte.of_to_N.
    + rewrite (N.div_mod (Byte.to_N b) 16) at 1 by done. lia.
  - by apply N.mod_lt.
  - apply N.Div0.div_lt_upper_bound. lia.
Qed.

(** X6. The hexadecimal string [computeHMAC] makes of the bytes of the MAC
    has two digits for each byte and loses nothing: the bytes are read back
    from it, so different MACs give different signatures. *)
Theorem hexString_round_trip bs bs' :
  unhex (hexString bs) = bs
  ∧ String.length (hexString bs) = (2 * length bs)%nat
  ∧ (hexString bs = hexString bs' → bs = bs').
Proof.
  assert (∀ l, unhex (hexString l) = l) as Hback.
  { induction l as [|b l IH]; [done|]. cbn [hexString].
    by rewrite unhex_hexByte, IH. }
  split; [apply Hback|]. split.
  - induction bs as [|b bs IH]; [done|]. cbn [hexString]. unfold hexByte. cbv zeta.
    change (S (S (String.length (hexString bs))) = (2 * S (length bs))%nat).
    rewrite IH. lia.
  - intros Heq. by rewrite <- (Hback bs), Heq, Hback.
Qed.

End AuthenticatorMore.

(** ** More about the message handler *)

Section HandlerMore.

Context {platform : Platform}.

Lemma handleSecureMessage_authenticated_auth options nowVerify nowSign m env auth' :
  invalidFormat (Object m) = false →
  isSecretExchange m = false →
  truthy_string (sharedSecret (dappAuthenticator env)) = true →
  missingAuthenticationFields m = false →
  verifyIncomingMessage nowVerify (asAuthenticatedMessage m) (dappAuthenticator env)
  = (Normal true, auth') →
  dappAuthenticator (snd (handleSecureMessage options nowVerify nowSign (Object m) env))
  = auth'.
Proof.
  intros Hvalid Hex Hsecret Hmiss Hverify.
  rewrite (handleSecureMessage_authenticated _ _ _ _ _ auth') by done.
  by rewrite (keeps_bind _ _ (processWalletRequest_keeps _)
                (handleSecureMessage_resume_keeps nowSign)).
Qed.

Lemma valid_requestId m :
  invalidFormat (Object m) = false →
  ∃ rid, in_requestId m = Some rid ∧ truthy_string rid = true.
Proof.
  unfold invalidFormat, truthy_option_string. intros Hvalid.
  destruct (in_requestId m) as [rid|]; [|done].
  exists rid. split; [done|]. by apply negb_false_iff in Hvalid.
Qed.

(** X7. An authenticated request that is delivered again is dropped: once
    [onmessage] has handled it, whatever the wallet did and whether or not a
    response could be sent, handling the same message again, at any time,
    changes nothing and posts nothing. *)
Theorem replay_is_dropped options nowVerify nowSign later laterSign m env auth' :
  invalidFormat (Object m) = false →
  isSecretExchange m = false →
  truthy_string (sharedSecret (dappAuthenticator env)) = true →
  missingAuthenticationFields m = false →
  verifyIncomingMessage nowVerify (asAuthenticatedMessage m) (dappAuthenticator env)
  = (Normal true, auth') →
  onmessage options later laterSign (Object m)
    (snd (onmessage options nowVerify nowSign (Object m) env))
  = (Normal tt, snd (onmessage options nowVerify nowSign (Object m) env)).
Proof.
  intros Hvalid Hex Hsecret Hmiss Hverify.
  rewrite (onmessage_eq _ nowVerify). cbn [snd].
  assert (dappAuthenticator
            (snd (handleSecureMessage options nowVerify nowSign (Object m) env))
          = auth') as Hauth
    by (by apply handleSecureMessage_authenticated_auth).
  apply verifyIncomingMessage_true in Hverify as (Hs & _ & _ & _ & ->).
  rewrite onmessage_eq. f_equal.
  rewrite handleSecureMessage_unauthenticated; [done| |done|].
  - by rewrite Hauth.
  - right. rewrite Hauth.
    assert (verifyIncomingMessage later (asAuthenticatedMessage m)
              (addNonce (nonce (asAuthenticatedMessage m)) (dappAuthenticator env))
            = (Normal false,
               addNonce (nonce (asAuthenticatedMessage m)) (dappAuthenticator env)))
      as Hreplay.
    { apply verify_false_reasons. right; right; left.
      by apply elem_of_union_l, elem_of_singleton. }
    by rewrite Hreplay.
Qed.

(** X8. Handling a message never removes the secret, and changes it only
    for a secret exchange: a channel that has a secret keeps having one, and
    where the secret after a message is not the one before, the message was
    an exchange, the secret is its widgetSecret and the ledger is empty. *)
Theorem keyed_only_by_exchange options nowVerify nowSign data env :
  (truthy_string (sharedSecret (dappAuthenticator env)) = true →
   truthy_string
     (sharedSecret
        (dappAuthenticator
           (snd (handleSecureMessage options nowVerify nowSign data env)))) = true)
  ∧ (sharedSecret
       (dappAuthenticator
          (snd (handleSecureMessage options nowVerify nowSign data env)))
     ≠ sharedSecret (dappAuthenticator env) →
     ∃ m, data = Object m
          ∧ isSecretExchange m = true
          ∧ in_widgetSecret m
            = Some (sharedSecret
                      (dappAuthenticator
                         (snd (handleSecureMessage options nowVerify nowSign data env))))
          ∧ usedNonces
              (dappAuthenticator
                 (snd (handleSecureMessage options nowVerify nowSign data env))) = ∅).
Proof.
  destruct (invalidFormat data) eqn:Hvalid.
  { rewrite handleSecureMessage_invalid by done. by split. }
  destruct data as [p|m]; [by rewrite invalidFormat_NotObject in Hvalid|].
  destruct (valid_requestId m Hvalid) as (rid & Hrid & Htruthy).
  destruct (isSecretExchange m) eqn:Hex.
  { pose proof Hex as (Haction & w & Hw & Hwt)%isSecretExchange_true.
    rewrite (handleSecureMessage_exchange_installs _ _ _ _ rid w) by done. cbn.
    split; [done|]. intros _. by exists m. }
  destruct (truthy_string (sharedSecret (dappAuthenticator env))) eqn:Hsecret;
    [|rewrite (handleSecureMessage_unkeyed _ _ _ _ rid) by done; by split].
  destruct (missingAuthenticationFields m) eqn:Hmiss.
  { rewrite handleSecureMessage_unauthenticated by auto. by split. }
  destruct (verifyIncomingMessage_returns nowVerify (asAuthenticatedMessage m)
              (dappAuthenticator env)) as ([|] & auth' & Hrun).
  - rewrite (handleSecureMessage_authenticated_auth _ _ _ _ _ auth') by done.
    apply verifyIncomingMessage_true in Hrun as (_ & _ & _ & _ & ->). by split.
  - rewrite handleSecureMessage_unauthenticated; [by split|done|done|].
    right. by rewrite Hrun.
Qed.

(** X9. With a secret installed, a message that is not a secret exchange
    and whose timestamp is 0, or whose nonce or signature is the empty
    string, is dropped like one that leaves the field out: the fields are
    tested for truth, and [verifyIncomingMessage] is not asked. *)
Theorem falsy_authentication_field_is_dropped options nowVerify nowSign m env :
  truthy_string (sharedSecret (dappAuthenticator env)) = true →
  isSecretExchange m = false →
  in_timestamp m = Some 0
  ∨ in_nonce m = Some EmptyString
  ∨ in_signature m = Some EmptyString →
  handleSecureMessage options nowVerify nowSign (Object m) env = (Normal tt, env).
Proof.
  intros Hsecret Hex Hfalsy.
  apply handleSecureMessage_unauthenticated; [done|done|]. left.
  unfold missingAuthenticationFields.
  destruct Hfalsy as [->|[->| ->]]; cbn; by rewrite ?orb_true_r.
Qed.

Lemma createWalletAdapter_eq options env :
  createWalletAdapter options env =
  (Normal tt,
   {| dappAuthenticator :=
        let aged :=
          if negb (default 300000 (opt_maxMessageAge options) =? 300000)
          then setMaxMessageAge (default 300000 (opt_maxMessageAge options))
                 (dappAuthenticator env)
          else dappAuthenticator env in
        if truthy_option_string (opt_sharedSecret options)
        then setSharedSecret (default EmptyString (opt_sharedSecret options)) aged
        else aged;
      window := window env;
      trace := trace env |}).
Proof.
  unfold createWalletAdapter, liftAuth, bind, modify, ret.
  destruct env as [auth w tr]. cbn [dappAuthenticator window trace].
  destruct (negb (default 300000 (opt_maxMessageAge options) =? 300000));
    by destruct (truthy_option_string (opt_sharedSecret options)).
Qed.

(** X10. [createWalletAdapter] configures the one authenticator of the
    module and does nothing else.  An age limit other than 300000 is set; no
    limit, or 300000, leaves the limit as it is, also when an earlier call
    had set another one.  A non-empty [sharedSecret] is installed, which
    empties the ledger; none, or the empty string, leaves secret and ledger
    as they are. *)
Theorem createWalletAdapter_configuration options env :
  fst (createWalletAdapter options env) = Normal tt
  ∧ window (snd (createWalletAdapter options env)) = window env
  ∧ trace (snd (createWalletAdapter options env)) = trace env
  ∧ (opt_maxMessageAge options = None ∨ opt_maxMessageAge options = Some 300000 →
     maxMessageAge (dappAuthenticator (snd (createWalletAdapter options env)))
     = maxMessageAge (dappAuthenticator env))
  ∧ (∀ age, opt_maxMessageAge options = Some age → age ≠ 300000 →
            maxMessageAge (dappAuthenticator (snd (createWalletAdapter options env)))
            = age)
  ∧ (truthy_option_string (opt_sharedSecret options) = true →
     opt_sharedSecret options
     = Some (sharedSecret (dappAuthenticator (snd (createWalletAdapter options env))))
     ∧ usedNonces (dappAuthenticator (snd (createWalletAdapter options env))) = ∅)
  ∧ (truthy_option_string (opt_sharedSecret options) = false →
     sharedSecret (dappAuthenticator (snd (createWalletAdapter options env)))
     = sharedSecret (dappAuthenticator env)
     ∧ usedNonces (dappAuthenticator (snd (createWalletAdapter options env)))
       = usedNonces (dappAuthenticator env)).
Proof.
  rewrite createWalletAdapter_eq. cbn [fst snd dappAuthenticator window trace].
  split; [done|]. split; [done|]. split; [done|]. split; [|split; [|split]].
  - intros Hdefault.
    assert (default 300000 (opt_maxMessageAge options) = 300000) as ->
      by (by destruct Hdefault as [-> | ->]).
    cbn. by destruct (truthy_option_string (opt_sharedSecret options)).
  - intros age -> Hage. change (default 300000 (Some age)) with age.
    assert ((age =? 300000) = false) as -> by lia. cbn.
    by destruct (truthy_option_string (opt_sharedSecret options)).
  - intros Hsecret. rewrite Hsecret.
    destruct (opt_sharedSecret options); [done|discriminate].
  - intros Hsecret. rewrite Hsecret. by destruct (negb _).
Qed.

End HandlerMore.

(** ** The wallet operations *)

Ltac wallet :=
  unfold processWalletRequest, walletAction, getEthereumProvider, is_action,
    request, dispatchEvent, setWalletDisconnected, emit, tryCatch, bind, gets,
    modify, ret, throw, liftC, logged, failure, failureWith, success;
  cbn [window trace dappAuthenticator ethereum walletDisconnected
       req_requestId req_action req_chain req_params].

Section WalletOperations.

Context {platform : Platform}.

(** X13. Without [window.ethereum] no operation is attempted: every
    request, whatever its action, is answered with the failure that MetaMask
    is not installed, and only the call is logged. *)
Theorem no_provider_no_operation req env :
  ethereum (window env) = None →
  processWalletRequest req env =
  (Normal (failure req "MetaMask not installed. Please install MetaMask to use this feature."),
   logged env [ProcessWalletRequest req]).
Proof.
  intros Hnone. wallet. rewrite Hnone. reflexivity.
Qed.

Lemma is_action_unsupported req name :
  (∀ a, a ∈ supportedActions → req_action req ≠ Some a) →
  name ∈ supportedActions → is_action req name = false.
Proof.
  intros Hnot Hin. unfold is_action.
  destruct (req_action req) as [a|] eqn:Ha; [|done].
  destruct (String.eqb a name) eqn:Heq; [|done].
  apply String.eqb_eq in Heq. subst. by destruct (Hnot name Hin).
Qed.

(** X14. An action that is none of the ten cases of the switch, or no
    action at all, reaches the provider with nothing: the response is the
    failure that names the action ("undefined" when there is none). *)
Theorem unsupported_action req env provider :
  ethereum (window env) = Some provider →
  (∀ a, a ∈ supportedActions → req_action req ≠ Some a) →
  processWalletRequest req env =
  (Normal (failure req ("Unsupported action: " +:+ default "undefined" (req_action req))),
   logged env [ProcessWalletRequest req]).
Proof.
  intros Hprov Hnot.
  unfold processWalletRequest, walletAction, getEthereumProvider.
  assert (∀ name, name ∈ supportedActions → is_action req name = false) as Hfalse
    by (intros; by apply is_action_unsupported).
  unfold tryCatch, bind, gets, emit, modify, ret, throw, liftC, logged, failure,
    failureWith.
  cbn [window trace dappAuthenticator]. rewrite Hprov.
  rewrite !Hfalse by (unfold supportedActions; set_solver).
  reflexivity.
Qed.

Lemma requiredParameter_cases a p msg :
  requiredParameter a = Some (p, msg) →
  (a = "SIGN_MESSAGE" ∧ p = "message" ∧ msg = "Message is required for signing")
  ∨ (a = "SIGN_TRANSACTION" ∧ p = "transaction"
     ∧ msg = "Transaction is required for signing")
  ∨ (a = "BROADCAST_TRANSACTION" ∧ p = "transaction"
     ∧ msg = "Transaction is required for broadcasting")
  ∨ (a = "SWITCH_NETWORK" ∧ p = "chainId"
     ∧ msg = "Chain ID is required for network switch").
Proof.
  unfold requiredParameter.
  repeat match goal with
         | |- context [String.eqb a ?s] =>
             let H := fresh in destruct (String.eqb a s) eqn:H;
             [apply String.eqb_eq in H; subst a|]
         end; intros [= <- <-]; tauto.
Qed.

(** X15. The four actions that need a parameter fail before the provider is
    asked anything when the parameter is missing or falsy (no params at all,
    an empty message, a chain id 0, ...), each with its own error. *)
Theorem missing_parameter req env provider a p msg :
  ethereum (window env) = Some provider →
  req_action req = Some a →
  requiredParameter a = Some (p, msg) →
  truthy (getPropOpt (req_params req) p) = false →
  processWalletRequest req env =
  (Normal (failure req msg), logged env [ProcessWalletRequest req]).
Proof.
  intros Hprov Haction Hreq Hmissing.
  destruct req as [rid act ch ps]. cbn in Haction, Hmissing. subst act.
  apply requiredParameter_cases in Hreq
    as [(-> & -> & ->)|[(-> & -> & ->)|[(-> & -> & ->)|(-> & -> & ->)]]];
    wallet; rewrite Hprov; cbn; rewrite Hmissing; reflexivity.
Qed.

(** X16. GET_BALANCE, and SIGN_MESSAGE with a message, ask the provider for
    its accounts first; with no account they fail with "No accounts
    connected" and the provider is asked nothing else. *)
Theorem no_accounts_connected req env provider accounts :
  ethereum (window env) = Some provider →
  req_action req = Some "GET_BALANCE"
  ∨ (req_action req = Some "SIGN_MESSAGE"
     ∧ truthy (getPropOpt (req_params req) "message") = true) →
  provider (method "eth_accounts") = Normal accounts →
  lengthIsZero accounts = Normal true →
  processWalletRequest req env =
  (Normal (failure req "No accounts connected"),
   logged env [ProcessWalletRequest req; ProviderRequest (method "eth_accounts")]).
Proof.
  intros Hprov Haction Haccounts Hempty.
  destruct req as [rid act ch ps]. cbn in Haction.
  destruct Haction as [->|[-> Hmessage]]; wallet; rewrite Hprov; cbn.
  - rewrite Haccounts, Hempty. cbn. by rewrite <- app_assoc.
  - rewrite Hmessage. cbn. rewrite Haccounts, Hempty. cbn. by rewrite <- app_assoc.
Qed.

(** X17. DISCONNECT_WALLET succeeds whatever the provider answers to the
    permission request, rejection included: the flag
    [window.walletDisconnected] is set, the wallet-disconnect event is
    dispatched and the response is the status "disconnected". *)
Theorem disconnect_always_succeeds req env provider :
  ethereum (window env) = Some provider →
  req_action req = Some "DISCONNECT_WALLET" →
  processWalletRequest req env =
  (Normal (success req (JsObj [("status", JsStr "disconnected")])),
   setDisconnected true
     (logged env
        [ ProcessWalletRequest req;
          ProviderRequest
            (method_params "eth_requestAccounts" [JsObj [("eth_accounts", JsObj [])]]);
          DispatchEvent "wallet-disconnect" JsNull ])).
Proof.
  intros Hprov Haction.
  destruct req as [rid act ch ps]. cbn in Haction. subst act.
  wallet. rewrite Hprov. cbn. unfold setDisconnected. cbn.
  destruct (provider _); cbn; by rewrite <- !app_assoc.
Qed.

(** X18. After a DISCONNECT_WALLET, GET_ACCOUNTS answers with the empty
    list and does not ask the provider, whatever accounts the provider has. *)
Theorem accounts_hidden_after_disconnect disconnect accounts env provider :
  ethereum (window env) = Some provider →
  req_action disconnect = Some "DISCONNECT_WALLET" →
  req_action accounts = Some "GET_ACCOUNTS" →
  processWalletRequest accounts (snd (processWalletRequest disconnect env)) =
  (Normal (success accounts (JsArr [])),
   logged (snd (processWalletRequest disconnect env)) [ProcessWalletRequest accounts]).
Proof.
  intros Hprov Hd Ha.
  destruct disconnect as [rid act ch ps], accounts as [rid' act' ch' ps'].
  cbn in Hd, Ha. subst act act'.
  wallet. rewrite Hprov. cbn.
  destruct (provider _); cbn; by rewrite Hprov.
Qed.

(** X19. CONNECT_WALLET clears [window.walletDisconnected] before it asks
    the provider, so the flag is off afterwards also when the provider
    refuses; when the provider grants accounts, they are the response and
    the payload of the wallet-connect event. *)
Theorem connect_clears_disconnected req env provider :
  ethereum (window env) = Some provider →
  req_action req = Some "CONNECT_WALLET" →
  walletDisconnected (window (snd (processWalletRequest req env))) = false
  ∧ (∀ accounts,
       provider (method "eth_requestAccounts") = Normal accounts →
       processWalletRequest req env =
       (Normal (success req accounts),
        setDisconnected false
          (logged env
             [ ProcessWalletRequest req;
               ProviderRequest (method "eth_requestAccounts");
               DispatchEvent "wallet-connect" (JsObj [("accounts", accounts)]) ]))).
Proof.
  intros Hprov Haction.
  destruct req as [rid act ch ps]. cbn in Haction. subst act.
  wallet. rewrite Hprov. cbn. unfold setDisconnected. cbn. split.
  - destruct (provider _) as [accounts|err]; cbn; [done|].
    by destruct (getProp err "message").
  - intros accounts ->. cbn. by rewrite <- !app_assoc.
Qed.

Lemma getProp_of_truthy v p :
  truthy (getPropOpt v p) = true → ∀ q, getProp v q = Normal (getPropOpt v q).
Proof.
  intros Htruthy q. destruct v; try done; cbn.
  - by destruct (String.eqb q "length").
  - by destruct (String.eqb q "length").
Qed.

(** X20. SWITCH_NETWORK to a chain the provider does not know (error code
    4902): without a networkConfig the request fails and the provider is not
    asked again; with one, the provider is asked to add the chain and, when
    it does, the response is the status "added_and_switched" and the
    network-changed event is dispatched. *)
Theorem switch_network_unknown_chain req env provider chainId err :
  ethereum (window env) = Some provider →
  req_action req = Some "SWITCH_NETWORK" →
  getPropOpt (req_params req) "chainId" = chainId → truthy chainId = true →
  provider (method_params "wallet_switchEthereumChain" [JsObj [("chainId", chainId)]])
  = Throw err →
  codeIs4902 err = Normal true →
  let networkConfig := getPropOpt (req_params req) "networkConfig" in
  let switch :=
    ProviderRequest
      (method_params "wallet_switchEthereumChain" [JsObj [("chainId", chainId)]]) in
  (truthy networkConfig = false →
   processWalletRequest req env =
   (Normal (failure req "Network not found and no network config provided"),
    logged env [ProcessWalletRequest req; switch]))
  ∧ (truthy networkConfig = true →
     ∀ added,
       provider (method_params "wallet_addEthereumChain" [networkConfig]) = Normal added →
       processWalletRequest req env =
       (Normal (success req (JsObj [ ("chainId", chainId);
                                     ("status", JsStr "added_and_switched") ])),
        logged env
          [ ProcessWalletRequest req; switch;
            ProviderRequest (method_params "wallet_addEthereumChain" [networkConfig]);
            DispatchEvent "wallet-network-changed" (JsObj [("chainId", chainId)]) ])).
Proof.
  intros Hprov Haction Hchain Htruthy Hswitch Hcode networkConfig switch.
  destruct req as [rid act ch ps]. cbn in Haction, Hchain, networkConfig. subst act.
  assert (∀ q, getProp ps q = Normal (getPropOpt ps q)) as Hget
    by (apply (getProp_of_truthy ps "chainId"); by rewrite Hchain).
  subst switch networkConfig. split.
  - intros Hconfig. wallet. rewrite Hprov. cbn.
    rewrite Hchain, Htruthy, !Hget, Hchain. cbn.
    rewrite Hswitch, Hcode. cbn. rewrite Hconfig. cbn. by rewrite <- !app_assoc.
  - intros Hconfig added Hadd. wallet. rewrite Hprov. cbn.
    rewrite Hchain, Htruthy, !Hget, Hchain. cbn.
    rewrite Hswitch, Hcode. cbn. rewrite Hconfig. cbn. rewrite Hadd. cbn.
    by rewrite <- !app_assoc.
Qed.

(** X21. NETWORK_SWITCHED_EVENT never reaches the provider: the params, or
    an empty object when they are falsy, are dispatched as a page event and
    the response is the status "event_dispatched". *)
Theorem network_switched_event_forwarded req env provider :
  ethereum (window env) = Some provider →
  req_action req = Some "NETWORK_SWITCHED_EVENT" →
  processWalletRequest req env =
  (Normal (success req (JsObj [("status", JsStr "event_dispatched")])),
   logged env
     [ ProcessWalletRequest req;
       DispatchEvent "NETWORK_SWITCHED_EVENT"
         (if truthy (req_params req) then req_params req else JsObj []) ]).
Proof.
  intros Hprov Haction.
  destruct req as [rid act ch ps]. cbn in Haction. subst act.
  wallet. rewrite Hprov. cbn. by rewrite <- !app_assoc.
Qed.

(** X22. GET_CHAIN_ID passes the provider's answer on: a result becomes the
    data of a success; a rejection becomes a failure whose error is the
    message of the rejection, or "Wallet operation failed" when that is
    falsy; a rejection with [null] or [undefined], which has no message to
    read, makes [processWalletRequest] itself throw. *)
Theorem provider_answer_passed_on req env provider :
  ethereum (window env) = Some provider →
  req_action req = Some "GET_CHAIN_ID" →
  let env' := logged env [ProcessWalletRequest req; ProviderRequest (method "eth_chainId")] in
  processWalletRequest req env =
  match provider (method "eth_chainId") with
  | Normal chainId => (Normal (success req chainId), env')
  | Throw err =>
      match getProp err "message" with
      | Normal message => (Normal (failureWith req (errorMessage message)), env')
      | Throw typeError => (Throw typeError, env')
      end
  end.
Proof.
  intros Hprov Haction env'. subst env'.
  destruct req as [rid act ch ps]. cbn in Haction. subst act.
  wallet. rewrite Hprov. cbn. unfold errorMessage.
  destruct (provider _) as [chainId|err]; cbn; [by rewrite <- !app_assoc|].
  destruct (getProp err "message"); cbn; by rewrite <- !app_assoc.
Qed.

(** X11. An authenticated GET_CHAIN_ID that the provider rejects with
    [null] or [undefined] gets no response at all: reading the message of
    the rejection throws, [onmessage] catches it and posts nothing.  The
    nonce is used up all the same. *)
Theorem rejection_with_null_is_unanswered
    options nowVerify nowSign m env auth' provider err :
  invalidFormat (Object m) = false →
  isSecretExchange m = false →
  truthy_string (sharedSecret (dappAuthenticator env)) = true →
  missingAuthenticationFields m = false →
  verifyIncomingMessage nowVerify (asAuthenticatedMessage m) (dappAuthenticator env)
  = (Normal true, auth') →
  in_action m = Some "GET_CHAIN_ID" →
  ethereum (window env) = Some provider →
  provider (method "eth_chainId") = Throw err →
  err = JsNull ∨ err = JsUndefined →
  onmessage options nowVerify nowSign (Object m) env =
  (Normal tt,
   {| dappAuthenticator := auth';
      window := window env;
      trace := trace env
               ++ [ ProcessWalletRequest
                      (stripAuthenticationFields (asAuthenticatedMessage m));
                    ProviderRequest (method "eth_chainId") ] |}).
Proof.
  intros Hvalid Hex Hsecret Hmiss Hverify Haction Hprov Hreject Hnull.
  unfold onmessage, tryCatch at 1.
  rewrite (handleSecureMessage_authenticated _ _ _ _ _ auth') by done.
  unfold bind at 1.
  assert (processWalletRequest (stripAuthenticationFields (asAuthenticatedMessage m))
            {| dappAuthenticator := auth'; window := window env; trace := trace env |}
          = (Throw (TypeError_nullish "message"),
             {| dappAuthenticator := auth';
                window := window env;
                trace := trace env
                         ++ [ ProcessWalletRequest
                                (stripAuthenticationFields (asAuthenticatedMessage m));
                              ProviderRequest (method "eth_chainId") ] |})) as ->.
  { unfold stripAuthenticationFields, asAuthenticatedMessage.
    cbn [requestId action chain params]. rewrite Haction.
    wallet. rewrite Hprov. cbn. rewrite Hreject. cbn.
    destruct Hnull as [-> | ->]; cbn; by rewrite <- !app_assoc. }
  reflexivity.
Qed.

End WalletOperations.

(** ** The first adapter of the file *)

Section LegacyProperties.

Context {platform : Platform}.

Lemma oblivious_ret {A} (a : A) : traceOblivious (ret a).
Proof. by intros pre env. Qed.

Lemma oblivious_throw {A} e : traceOblivious (throw (A := A) e).
Proof. by intros pre env. Qed.

Lemma oblivious_liftC {A} (c : Completion A) : traceOblivious (liftC c).
Proof. by intros pre env. Qed.

Lemma oblivious_window : traceOblivious (gets window).
Proof. by intros pre env. Qed.

Lemma oblivious_emit e : traceOblivious (emit e).
Proof.
  intros pre env. unfold emit, modify, prefixed. cbn. by rewrite app_assoc.
Qed.

Lemma oblivious_setWalletDisconnected b : traceOblivious (setWalletDisconnected b).
Proof. by intros pre env. Qed.

Lemma oblivious_bind {A B} (m : Op Env A) (k : A → Op Env B) :
  traceOblivious m → (∀ a, traceOblivious (k a)) → traceOblivious (bind m k).
Proof.
  intros Hm Hk pre env. unfold bind. rewrite Hm.
  destruct (m env) as [[a|e] env1]; cbn [fst snd]; [|done]. by rewrite Hk.
Qed.

Lemma oblivious_tryCatch {A} (m : Op Env A) (handler : JsVal → Op Env A) :
  traceOblivious m → (∀ e, traceOblivious (handler e)) →
  traceOblivious (tryCatch m handler).
Proof.
  intros Hm Hh pre env. unfold tryCatch. rewrite Hm.
  destruct (m env) as [[a|e] env1]; cbn [fst snd]; [done|]. by rewrite Hh.
Qed.

Local Ltac oblivious :=
  repeat first
    [ apply oblivious_ret | apply oblivious_throw | apply oblivious_liftC
    | apply oblivious_window | apply oblivious_emit
    | apply oblivious_setWalletDisconnected
    | apply oblivious_bind; [|intros ?] | apply oblivious_tryCatch; [|intros ?]
    | match goal with
      | |- traceOblivious (if ?c then _ else _) => destruct c
      | |- traceOblivious (match ?c with Some _ => _ | None => _ end) => destruct c
      end ].

Lemma legacy_response_oblivious req : traceOblivious (legacy_response req).
Proof.
  unfold legacy_response, legacy_declared, legacy_switch, legacy_getEthereumProvider,
    request, dispatchEvent.
  cbv zeta. oblivious.
Qed.

Lemma same_refl {S A} (m : Op S A) : sameOp m m.
Proof. by intros s. Qed.

Lemma same_bind {S A B} (m m' : Op S A) (k k' : A → Op S B) :
  sameOp m m' → (∀ a, sameOp (k a) (k' a)) → sameOp (bind m k) (bind m' k').
Proof.
  intros Hm Hk s. unfold bind. rewrite Hm.
  destruct (m' s) as [[a|e] s1]; [apply Hk|done].
Qed.

Lemma same_bind_ret {S A} (m m' : Op S A) :
  sameOp m m' → sameOp (bind m (fun a => ret a)) m'.
Proof.
  intros Hm s. unfold bind, ret. rewrite Hm. by destruct (m' s) as [[a|e] s1].
Qed.

Lemma same_tryCatch {S A} (m m' : Op S A) (h h' : JsVal → Op S A) :
  sameOp m m' → (∀ e, sameOp (h e) (h' e)) → sameOp (tryCatch m h) (tryCatch m' h').
Proof.
  intros Hm Hh s. unfold tryCatch. rewrite Hm.
  destruct (m' s) as [[a|e] s1]; [done|apply Hh].
Qed.

Local Ltac same :=
  repeat first
    [ apply same_bind_ret
    | apply same_bind; [|intros ?]
    | apply same_tryCatch; [|intros ?]
    | match goal with
      | |- sameOp (if ?c then _ else _) (if ?c then _ else _) => destruct c
      end
    | apply same_refl ].

(** The two switches, case by case. *)
Lemma legacy_switch_walletAction req : sameOp (legacy_switch req) (walletAction req).
Proof.
  unfold legacy_switch, walletAction. cbv zeta. same.
Qed.

(** [processWalletRequest] is the [try] and [catch] of the first adapter,
    after the call is logged. *)
Lemma legacy_response_processWalletRequest req env :
  processWalletRequest req env
  = legacy_response req (snd (emit (ProcessWalletRequest req) env)).
Proof.
  unfold processWalletRequest, bind at 1. cbn [emit modify snd].
  symmetry. apply same_tryCatch; [|intros err; apply same_refl].
  apply same_bind; [apply legacy_switch_walletAction|intros result; apply same_refl].
Qed.

(** X23. The two adapters of the file do the same wallet operations: on
    every request and every page, [processWalletRequest] of the secure
    adapter and the [try] and [catch] of the handler of the first adapter,
    each with the [switch] of its own document, give the same response (or
    throw the same error), leave the same window and the same authenticator,
    and make the same provider requests and page events; the secure one logs
    the call before them. *)
Theorem legacy_and_secure_agree req env :
  ∃ events,
    fst (processWalletRequest req env) = fst (legacy_response req env)
    ∧ window (snd (processWalletRequest req env))
      = window (snd (legacy_response req env))
    ∧ dappAuthenticator (snd (processWalletRequest req env))
      = dappAuthenticator (snd (legacy_response req env))
    ∧ trace (snd (legacy_response req env)) = trace env ++ events
    ∧ trace (snd (processWalletRequest req env))
      = trace env ++ ProcessWalletRequest req :: events.
Proof.
  destruct env as [auth w tr].
  set (env0 := {| dappAuthenticator := auth; window := w; trace := [] |}).
  exists (trace (snd (legacy_response req env0))).
  assert (processWalletRequest req {| dappAuthenticator := auth; window := w; trace := tr |}
          = legacy_response req (prefixed (tr ++ [ProcessWalletRequest req]) env0))
    as ->.
  { rewrite legacy_response_processWalletRequest.
    unfold emit, modify, prefixed, env0. cbn. by rewrite app_nil_r. }
  assert ({| dappAuthenticator := auth; window := w; trace := tr |} = prefixed tr env0)
    as ->.
  { unfold prefixed, env0. cbn. by rewrite app_nil_r. }
  rewrite !legacy_response_oblivious. cbn. by rewrite app_nil_r, <- app_assoc.
Qed.

End LegacyProperties.

(** ** What is posted on the channel *)

Section Responses.

Context {platform : Platform}.

Lemma posted_app l1 l2 : posted (l1 ++ l2) = posted l1 ++ posted l2.
Proof.
  induction l1 as [|e l1 IH]; [done|]. cbn. destruct e; cbn; by rewrite IH.
Qed.

Lemma silent_ret {A} (a : A) : postsNothing (ret a).
Proof. by intros env. Qed.

Lemma silent_throw {A} e : postsNothing (throw (A := A) e).
Proof. by intros env. Qed.

Lemma silent_liftC {A} (c : Completion A) : postsNothing (liftC c).
Proof. by intros env. Qed.

Lemma silent_gets {A} (f : Env → A) : postsNothing (gets f).
Proof. by intros env. Qed.

Lemma silent_setWalletDisconnected b : postsNothing (setWalletDisconnected b).
Proof. by intros env. Qed.

Lemma silent_emit e :
  (∀ m, e ≠ PostMessage m) → postsNothing (emit e).
Proof.
  intros Hne env. unfold emit, modify. cbn. rewrite posted_app.
  destruct e; cbn; try by rewrite app_nil_r. by destruct (Hne m).
Qed.

Lemma silent_bind {A B} (m : Op Env A) (k : A → Op Env B) :
  postsNothing m → (∀ a, postsNothing (k a)) → postsNothing (bind m k).
Proof.
  intros Hm Hk env. unfold bind. specialize (Hm env).
  destruct (m env) as [[a|e] env1]; cbn [snd] in *; [|done].
  by rewrite Hk.
Qed.

Lemma silent_tryCatch {A} (m : Op Env A) (handler : JsVal → Op Env A) :
  postsNothing m → (∀ e, postsNothing (handler e)) →
  postsNothing (tryCatch m handler).
Proof.
  intros Hm Hh env. unfold tryCatch. specialize (Hm env).
  destruct (m env) as [[a|e] env1]; cbn [snd] in *; [done|].
  by rewrite Hh.
Qed.

Local Ltac silent :=
  repeat first
    [ apply silent_ret | apply silent_throw | apply silent_liftC | apply silent_gets
    | apply silent_setWalletDisconnected
    | apply silent_emit; intros ?; discriminate
    | apply silent_bind; [|intros ?] | apply silent_tryCatch; [|intros ?]
    | match goal with
      | |- postsNothing (if ?c then _ else _) => destruct c
      | |- postsNothing (match ?c with Some _ => _ | None => _ end) => destruct c
      end ].

Lemma processWalletRequest_silent req : postsNothing (processWalletRequest req).
Proof.
  unfold processWalletRequest, walletAction, getEthereumProvider, request,
    dispatchEvent.
  silent.
Qed.

(** X12. Handling one message posts at most one message on the channel,
    and what is posted carries the requestId of the message handled. *)
Theorem at_most_one_response options nowVerify nowSign data env :
  ∃ answers,
    posted (trace (snd (handleSecureMessage options nowVerify nowSign data env)))
    = posted (trace env) ++ answers
    ∧ (length answers ≤ 1)%nat
    ∧ ∀ answer, answer ∈ answers →
        ∃ m, data = Object m ∧ in_requestId m = Some (responseId answer).
Proof.
  destruct (invalidFormat data) eqn:Hvalid.
  { exists []. rewrite handleSecureMessage_invalid by done. cbn.
    rewrite app_nil_r. split; [done|]. split; [lia|]. by intros a ?%elem_of_nil. }
  destruct data as [p|m]; [by rewrite invalidFormat_NotObject in Hvalid|].
  destruct (valid_requestId m Hvalid) as (rid & Hrid & Htruthy).
  assert (∀ answer, responseId answer = rid →
            (length [answer] ≤ 1)%nat
            ∧ ∀ a, a ∈ [answer] →
                ∃ m0, Object m = Object m0 ∧ in_requestId m0 = Some (responseId a))
    as Hone.
  { intros answer Hid. split; [cbn; lia|].
    intros a ->%list_elem_of_singleton. exists m. by rewrite Hid. }
  assert ((length (@nil ChannelMessage) ≤ 1)%nat
          ∧ ∀ a, a ∈ @nil ChannelMessage →
              ∃ m0, Object m = Object m0 ∧ in_requestId m0 = Some (responseId a))
    as Hnone.
  { split; [cbn; lia|]. by intros a ?%elem_of_nil. }
  destruct (isSecretExchange m) eqn:Hex.
  { pose proof Hex as (Haction & w & Hw & Hwt)%isSecretExchange_true.
    rewrite (handleSecureMessage_exchange _ _ _ _ rid w) by done.
    destruct (opt_onSharedSecretReceived options) as [callback|];
      [destruct (callback w) as [[]|error]|]; cbn [snd trace].
    - exists [Unsigned (ackResponse rid)]. split; [|by apply Hone].
      by rewrite posted_app.
    - exists []. split; [|done]. by rewrite posted_app.
    - exists [Unsigned (ackResponse rid)]. split; [|by apply Hone].
      by rewrite posted_app. }
  destruct (truthy_string (sharedSecret (dappAuthenticator env))) eqn:Hsecret.
  2:{ exists [Unsigned (errorResponse rid)].
      rewrite (handleSecureMessage_unkeyed _ _ _ _ rid) by done. cbn [snd trace].
      split; [|by apply Hone]. by rewrite posted_app. }
  destruct (missingAuthenticationFields m) eqn:Hmiss.
  { exists []. rewrite handleSecureMessage_unauthenticated by auto.
    by rewrite app_nil_r. }
  destruct (verifyIncomingMessage_returns nowVerify (asAuthenticatedMessage m)
              (dappAuthenticator env)) as ([|] & auth' & Hrun).
  2:{ exists []. rewrite handleSecureMessage_unauthenticated; [|done|done|].
      - by rewrite app_nil_r.
      - right. by rewrite Hrun. }
  rewrite (handleSecureMessage_answers _ _ _ _ _ auth') by done. cbv zeta.
  set (req := stripAuthenticationFields (asAuthenticatedMessage m)).
  set (env0 := {| dappAuthenticator := auth'; window := window env;
                  trace := trace env |}).
  pose proof (processWalletRequest_silent req env0) as Hsilent.
  destruct (processWalletRequest req env0) as [[response|e] env1] eqn:Hprocess;
    cbn [snd] in Hsilent.
  2:{ exists []. cbn [snd]. rewrite Hsilent. by rewrite app_nil_r. }
  destruct (signResponse nowSign response (dappAuthenticator env1))
    as [[sr|e] auth1] eqn:Hsign.
  2:{ exists []. cbn [snd]. rewrite Hsilent. by rewrite app_nil_r. }
  exists [Signed sr]. cbn [snd trace]. rewrite posted_app, Hsilent.
  split; [done|]. apply Hone. cbn [responseId].
  apply signResponse_fields in Hsign as (-> & _).
  apply processWalletRequest_response in Hprocess as (-> & _).
  unfold req, stripAuthenticationFields, asAuthenticatedMessage. cbn.
  by rewrite Hrid.
Qed.

End Responses.

(** ** The properties above on the scenarios *)

Section MoreRuns.

Import Scenario.

(** The request of the specification is accepted by the authenticator that
    has the secret ["abc"]. *)
Lemma getChainId_accepted :
  verify t0 (asAuthenticatedMessage getChainId) keyed
  = (Normal true, addNonce "n1" keyed).
Proof.
  apply verifyIncomingMessage_true. repeat split.
  - vm_compute. discriminate.
  - apply not_elem_of_empty.
  - eexists. split; [reflexivity | vm_compute; reflexivity].
Qed.

Lemma verify_true_only_if_witness :
  sharedSecret keyed ≠ EmptyString
  ∧ - maxMessageAge keyed <= t0 - timestamp (asAuthenticatedMessage getChainId)
    <= maxMessageAge keyed
  ∧ (nonce (asAuthenticatedMessage getChainId) ∉ usedNonces keyed)
  ∧ correctlySigned (platform := browser) (sharedSecret keyed)
      (asAuthenticatedMessage getChainId)
  ∧ sharedSecret (addNonce "n1" keyed) = sharedSecret keyed
  ∧ maxMessageAge (addNonce "n1" keyed) = maxMessageAge keyed
  ∧ usedNonces (addNonce "n1" keyed)
    = {[ nonce (asAuthenticatedMessage getChainId) ]} ∪ usedNonces keyed.
Proof.
  apply (verify_true_only_if (platform := browser) t0
           (asAuthenticatedMessage getChainId) keyed (addNonce "n1" keyed)).
  exact getChainId_accepted.
Defined.

(** The request of the specification is suspended at the [await], the host
    installs the empty secret, and the request resumes. *)
Lemma ledger_needs_secret_unless_overtaken_witness :
  rtc (AuthStep (platform := browser))
    {| authenticator := keyed; awaited := [] |}
    {| authenticator :=
         addNonce (nonce (asAuthenticatedMessage getChainId))
           (setSharedSecret EmptyString keyed);
       awaited := [] |}
  ∧ sharedSecret
      (addNonce (nonce (asAuthenticatedMessage getChainId))
         (setSharedSecret EmptyString keyed)) = EmptyString
  ∧ usedNonces
      (addNonce (nonce (asAuthenticatedMessage getChainId))
         (setSharedSecret EmptyString keyed))
    = {[ nonce (asAuthenticatedMessage getChainId) ]}.
Proof.
  apply (proj2 (ledger_needs_secret_unless_overtaken (platform := browser) keyed [] t0
                  (asAuthenticatedMessage getChainId) EmptyString)).
  - reflexivity.
  - vm_compute. discriminate.
  - apply not_elem_of_empty.
  - eexists. split; [reflexivity | vm_compute; reflexivity].
Defined.

(** A minute after it was accepted the request is a replay, and no longer
    one after the secret ["abc"] is installed again. *)
Lemma setSharedSecret_reopens_replay_witness :
  verify (t0 + 60000) (asAuthenticatedMessage getChainId) (addNonce "n1" keyed)
  = (Normal false, addNonce "n1" keyed)
  ∧ verify (t0 + 60000) (asAuthenticatedMessage getChainId)
      (setSharedSecret abc (addNonce "n1" keyed))
    = (Normal true,
       addNonce (nonce (asAuthenticatedMessage getChainId))
         (setSharedSecret abc (addNonce "n1" keyed))).
Proof.
  apply (setSharedSecret_reopens_replay (platform := browser) t0 (t0 + 60000) abc
           (asAuthenticatedMessage getChainId) keyed (addNonce "n1" keyed)).
  - exact getChainId_accepted.
  - reflexivity.
  - vm_compute. discriminate.
Defined.

(** With one nonce in the ledger the cleanup keeps the replay out. *)
Lemma cleanup_reopens_replay_witness :
  verify (t0 + 60000) (asAuthenticatedMessage getChainId)
    (cleanupOldNonces (addNonce "n1" keyed))
  = (Normal false, cleanupOldNonces (addNonce "n1" keyed)).
Proof.
  apply (proj1 (cleanup_reopens_replay (platform := browser) t0 (t0 + 60000)
                  (asAuthenticatedMessage getChainId) keyed (addNonce "n1" keyed)
                  getChainId_accepted ltac:(vm_compute; discriminate))).
  vm_compute. lia.
Defined.

(** With the limit -1 the request of the specification is rejected at the
    time of its own timestamp. *)
Lemma setMaxMessageAge_only_moves_the_limit_witness :
  verify t0 (asAuthenticatedMessage getChainId) (setMaxMessageAge (-1) keyed)
  = (Normal false, setMaxMessageAge (-1) keyed).
Proof.
  apply (proj1 (proj2 (proj2 (setMaxMessageAge_only_moves_the_limit
                                (platform := browser) (-1) t0
                                (asAuthenticatedMessage getChainId) keyed)))).
  lia.
Defined.

(** Two bytes of a MAC, written as the signature has them and read back. *)
Lemma hexString_round_trip_witness :
  unhex (hexString [x0a; xff]) = [x0a; xff]
  ∧ String.length (hexString [x0a; xff]) = (2 * length [x0a; xff])%nat
  ∧ (hexString [x0a; xff] = hexString [x0a; xfe] → [x0a; xff] = [x0a; xfe]).
Proof.
  exact (hexString_round_trip [x0a; xff] [x0a; xfe]).
Defined.

(** The request of the specification is accepted on the page that has the
    secret ["abc"]. *)
Lemma getChainId_accepted_on_keyedPage :
  verifyIncomingMessage (platform := browser) t0 (asAuthenticatedMessage getChainId)
    (dappAuthenticator keyedPage)
  = (Normal true, addNonce "n1" (dappAuthenticator keyedPage)).
Proof. exact getChainId_accepted. Qed.

(** The request of the specification, delivered again a minute later. *)
Lemma replay_is_dropped_witness :
  onmessage (platform := browser) options (t0 + 60000) (t0 + 60000) (Object getChainId)
    (snd (onmessage (platform := browser) options t0 t0 (Object getChainId) keyedPage))
  = (Normal tt,
     snd (onmessage (platform := browser) options t0 t0 (Object getChainId) keyedPage)).
Proof.
  apply (replay_is_dropped (platform := browser) options t0 t0 (t0 + 60000)
           (t0 + 60000) getChainId keyedPage
           (addNonce "n1" (dappAuthenticator keyedPage))).
  - reflexivity.
  - reflexivity.
  - reflexivity.
  - reflexivity.
  - exact getChainId_accepted_on_keyedPage.
Defined.

(** The first exchange on the page changes the secret. *)
Lemma keyed_only_by_exchange_witness :
  ∃ m,
    Object (exchange "0" (Some abc)) = Object m
    ∧ isSecretExchange m = true
    ∧ in_widgetSecret m
      = Some (sharedSecret
                (dappAuthenticator
                   (snd (handleSecureMessage (platform := browser) options t0 t0
                           (Object (exchange "0" (Some abc))) walletPage))))
    ∧ usedNonces
        (dappAuthenticator
           (snd (handleSecureMessage (platform := browser) options t0 t0
                   (Object (exchange "0" (Some abc))) walletPage))) = ∅.
Proof.
  apply (proj2 (keyed_only_by_exchange (platform := browser) options t0 t0
                  (Object (exchange "0" (Some abc))) walletPage)).
  vm_compute. discriminate.
Defined.

(** A request with the timestamp 0, correctly signed, at a time when it
    would not be stale. *)
Lemma falsy_authentication_field_is_dropped_witness :
  handleSecureMessage (platform := browser) options 1000 1000
    (Object Cases.getChainIdAtZero) keyedPage
  = (Normal tt, keyedPage).
Proof.
  apply (falsy_authentication_field_is_dropped (platform := browser) options 1000 1000
           Cases.getChainIdAtZero keyedPage).
  - reflexivity.
  - reflexivity.
  - left. reflexivity.
Defined.

(** The authenticator itself accepts that request. *)
Example getChainIdAtZero_verified :
  fst (verify 1000 (asAuthenticatedMessage Cases.getChainIdAtZero) keyed) = Normal true.
Proof. vm_compute. reflexivity. Qed.

(** An adapter created with a limit of one minute. *)
Lemma createWalletAdapter_configuration_witness :
  maxMessageAge
    (dappAuthenticator
       (snd (createWalletAdapter
               {| opt_sharedSecret := None;
                  opt_onSharedSecretReceived := None;
                  opt_maxMessageAge := Some 60000;
                  opt_debugMode := false |} keyedPage)))
  = 60000.
Proof.
  apply (proj1 (proj2 (proj2 (proj2 (proj2
           (createWalletAdapter_configuration
              {| opt_sharedSecret := None;
                 opt_onSharedSecretReceived := None;
                 opt_maxMessageAge := Some 60000;
                 opt_debugMode := false |} keyedPage)))))).
  - reflexivity.
  - lia.
Defined.

(** The request of the specification on the page whose provider rejects
    with [null]. *)
Lemma rejection_with_null_is_unanswered_witness :
  onmessage (platform := browser) options t0 t0 (Object getChainId) Cases.nullPage
  = (Normal tt,
     {| dappAuthenticator := addNonce "n1" (dappAuthenticator Cases.nullPage);
        window := window Cases.nullPage;
        trace := trace Cases.nullPage
                 ++ [ ProcessWalletRequest
                        (stripAuthenticationFields (asAuthenticatedMessage getChainId));
                      ProviderRequest (method "eth_chainId") ] |}).
Proof.
  apply (rejection_with_null_is_unanswered (platform := browser) options t0 t0
           getChainId Cases.nullPage (addNonce "n1" (dappAuthenticator Cases.nullPage))
           Cases.nullWallet JsNull).
  - reflexivity.
  - reflexivity.
  - reflexivity.
  - reflexivity.
  - exact getChainId_accepted.
  - reflexivity.
  - reflexivity.
  - reflexivity.
  - left. reflexivity.
Defined.

(** The request of the specification on the page that has the secret. *)
Lemma at_most_one_response_witness :
  ∃ answers,
    posted (trace (snd (handleSecureMessage (platform := browser) options t0 t0
                          (Object getChainId) keyedPage)))
    = posted (trace keyedPage) ++ answers
    ∧ (length answers ≤ 1)%nat
    ∧ ∀ answer, answer ∈ answers →
        ∃ m, Object getChainId = Object m ∧ in_requestId m = Some (responseId answer).
Proof.
  exact (at_most_one_response (platform := browser) options t0 t0 (Object getChainId)
           keyedPage).
Defined.

(** A page without [window.ethereum]. *)
Lemma no_provider_no_operation_witness :
  processWalletRequest (platform := browser)
    (Cases.request "4" "GET_ACCOUNTS" JsUndefined) (page None)
  = (Normal (failure (Cases.request "4" "GET_ACCOUNTS" JsUndefined)
               "MetaMask not installed. Please install MetaMask to use this feature."),
     logged (page None)
       [ProcessWalletRequest (Cases.request "4" "GET_ACCOUNTS" JsUndefined)]).
Proof.
  apply (no_provider_no_operation (platform := browser)
           (Cases.request "4" "GET_ACCOUNTS" JsUndefined) (page None)).
  reflexivity.
Defined.

(** The action FOO. *)
Lemma unsupported_action_witness :
  processWalletRequest (platform := browser)
    (Cases.request "4" "FOO" JsUndefined) walletPage
  = (Normal (failure (Cases.request "4" "FOO" JsUndefined) "Unsupported action: FOO"),
     logged walletPage [ProcessWalletRequest (Cases.request "4" "FOO" JsUndefined)]).
Proof.
  apply (unsupported_action (platform := browser)
           (Cases.request "4" "FOO" JsUndefined) walletPage provider).
  - reflexivity.
  - intros a Ha [= <-]. unfold supportedActions in Ha.
    repeat (apply elem_of_cons in Ha as [Ha|Ha]; [discriminate|]).
    by apply elem_of_nil in Ha.
Defined.

(** SIGN_MESSAGE without params. *)
Lemma missing_parameter_witness :
  processWalletRequest (platform := browser)
    (Cases.request "4" "SIGN_MESSAGE" JsUndefined) walletPage
  = (Normal (failure (Cases.request "4" "SIGN_MESSAGE" JsUndefined)
               "Message is required for signing"),
     logged walletPage
       [ProcessWalletRequest (Cases.request "4" "SIGN_MESSAGE" JsUndefined)]).
Proof.
  apply (missing_parameter (platform := browser)
           (Cases.request "4" "SIGN_MESSAGE" JsUndefined) walletPage provider
           "SIGN_MESSAGE" "message" "Message is required for signing").
  - reflexivity.
  - reflexivity.
  - reflexivity.
  - reflexivity.
Defined.

(** GET_BALANCE on a wallet with no account. *)
Lemma no_accounts_connected_witness :
  processWalletRequest (platform := browser)
    (Cases.request "4" "GET_BALANCE" JsUndefined) (page (Some Cases.emptyWallet))
  = (Normal (failure (Cases.request "4" "GET_BALANCE" JsUndefined)
               "No accounts connected"),
     logged (page (Some Cases.emptyWallet))
       [ ProcessWalletRequest (Cases.request "4" "GET_BALANCE" JsUndefined);
         ProviderRequest (method "eth_accounts") ]).
Proof.
  apply (no_accounts_connected (platform := browser)
           (Cases.request "4" "GET_BALANCE" JsUndefined) (page (Some Cases.emptyWallet))
           Cases.emptyWallet (JsArr [])).
  - reflexivity.
  - left. reflexivity.
  - reflexivity.
  - reflexivity.
Defined.

(** DISCONNECT_WALLET on the wallet with one account, and on the one that
    rejects everything with [null]. *)
Lemma disconnect_always_succeeds_witness :
  fst (processWalletRequest (platform := browser)
         (Cases.request "4" "DISCONNECT_WALLET" JsUndefined) walletPage)
  = Normal (success (Cases.request "4" "DISCONNECT_WALLET" JsUndefined)
              (JsObj [("status", JsStr "disconnected")]))
  ∧ fst (processWalletRequest (platform := browser)
           (Cases.request "4" "DISCONNECT_WALLET" JsUndefined)
           (page (Some Cases.nullWallet)))
    = Normal (success (Cases.request "4" "DISCONNECT_WALLET" JsUndefined)
                (JsObj [("status", JsStr "disconnected")])).
Proof.
  split.
  - rewrite (disconnect_always_succeeds (platform := browser)
               (Cases.request "4" "DISCONNECT_WALLET" JsUndefined) walletPage provider
               eq_refl eq_refl).
    reflexivity.
  - rewrite (disconnect_always_succeeds (platform := browser)
               (Cases.request "4" "DISCONNECT_WALLET" JsUndefined)
               (page (Some Cases.nullWallet)) Cases.nullWallet eq_refl eq_refl).
    reflexivity.
Defined.

(** GET_ACCOUNTS after DISCONNECT_WALLET on the wallet with one account. *)
Lemma accounts_hidden_after_disconnect_witness :
  processWalletRequest (platform := browser)
    (Cases.request "5" "GET_ACCOUNTS" JsUndefined)
    (snd (processWalletRequest (platform := browser)
            (Cases.request "4" "DISCONNECT_WALLET" JsUndefined) walletPage))
  = (Normal (success (Cases.request "5" "GET_ACCOUNTS" JsUndefined) (JsArr [])),
     logged
       (snd (processWalletRequest (platform := browser)
               (Cases.request "4" "DISCONNECT_WALLET" JsUndefined) walletPage))
       [ProcessWalletRequest (Cases.request "5" "GET_ACCOUNTS" JsUndefined)]).
Proof.
  apply (accounts_hidden_after_disconnect (platform := browser)
           (Cases.request "4" "DISCONNECT_WALLET" JsUndefined)
           (Cases.request "5" "GET_ACCOUNTS" JsUndefined) walletPage provider).
  - reflexivity.
  - reflexivity.
  - reflexivity.
Defined.

(** CONNECT_WALLET, with the flag set, on a wallet that refuses to connect. *)
Lemma connect_clears_disconnected_witness :
  walletDisconnected
    (window
       (snd (processWalletRequest (platform := browser)
               (Cases.request "4" "CONNECT_WALLET" JsUndefined)
               (setDisconnected true (page (Some Cases.emptyWallet))))))
  = false.
Proof.
  apply (proj1 (connect_clears_disconnected (platform := browser)
                  (Cases.request "4" "CONNECT_WALLET" JsUndefined)
                  (setDisconnected true (page (Some Cases.emptyWallet)))
                  Cases.emptyWallet eq_refl eq_refl)).
Defined.

(** The switch to Base on a wallet that does not know it. *)
Lemma switch_network_unknown_chain_witness :
  processWalletRequest (platform := browser) Cases.switchToBase
    (page (Some Cases.unknownChainWallet))
  = (Normal (success Cases.switchToBase
               (JsObj [ ("chainId", JsStr "0x2105");
                        ("status", JsStr "added_and_switched") ])),
     logged (page (Some Cases.unknownChainWallet))
       [ ProcessWalletRequest Cases.switchToBase;
         ProviderRequest
           (method_params "wallet_switchEthereumChain"
              [JsObj [("chainId", JsStr "0x2105")]]);
         ProviderRequest (method_params "wallet_addEthereumChain" [Cases.baseConfig]);
         DispatchEvent "wallet-network-changed"
           (JsObj [("chainId", JsStr "0x2105")]) ]).
Proof.
  apply (proj2 (switch_network_unknown_chain (platform := browser) Cases.switchToBase
                  (page (Some Cases.unknownChainWallet)) Cases.unknownChainWallet
                  (JsStr "0x2105")
                  (JsObj [ ("code", JsNum 4902);
                           ("message", JsStr "Unrecognized chain ID") ])
                  eq_refl eq_refl eq_refl eq_refl eq_refl eq_refl)
           eq_refl JsNull eq_refl).
Defined.

(** The event of the widget that the network was switched. *)
Lemma network_switched_event_forwarded_witness :
  processWalletRequest (platform := browser)
    (Cases.request "4" "NETWORK_SWITCHED_EVENT" (JsObj [("chainId", JsStr "0x1")]))
    walletPage
  = (Normal (success
               (Cases.request "4" "NETWORK_SWITCHED_EVENT"
                  (JsObj [("chainId", JsStr "0x1")]))
               (JsObj [("status", JsStr "event_dispatched")])),
     logged walletPage
       [ ProcessWalletRequest
           (Cases.request "4" "NETWORK_SWITCHED_EVENT"
              (JsObj [("chainId", JsStr "0x1")]));
         DispatchEvent "NETWORK_SWITCHED_EVENT" (JsObj [("chainId", JsStr "0x1")]) ]).
Proof.
  apply (network_switched_event_forwarded (platform := browser)
           (Cases.request "4" "NETWORK_SWITCHED_EVENT"
              (JsObj [("chainId", JsStr "0x1")]))
           walletPage provider).
  - reflexivity.
  - reflexivity.
Defined.

(** GET_CHAIN_ID on the wallet on chain 1, and on the one that rejects it
    with a message. *)
Lemma provider_answer_passed_on_witness :
  fst (processWalletRequest (platform := browser)
         (Cases.request "4" "GET_CHAIN_ID" JsUndefined) walletPage)
  = Normal (success (Cases.request "4" "GET_CHAIN_ID" JsUndefined) (JsStr "0x1"))
  ∧ fst (processWalletRequest (platform := browser)
           (Cases.request "4" "GET_CHAIN_ID" JsUndefined)
           (page (Some Cases.emptyWallet)))
    = Normal (failure (Cases.request "4" "GET_CHAIN_ID" JsUndefined) "Unauthorized").
Proof.
  split.
  - rewrite (provider_answer_passed_on (platform := browser)
               (Cases.request "4" "GET_CHAIN_ID" JsUndefined) walletPage provider
               eq_refl eq_refl).
    reflexivity.
  - rewrite (provider_answer_passed_on (platform := browser)
               (Cases.request "4" "GET_CHAIN_ID" JsUndefined)
               (page (Some Cases.emptyWallet)) Cases.emptyWallet eq_refl eq_refl).
    reflexivity.
Defined.

(** GET_CHAIN_ID on the wallet on chain 1, by both adapters. *)
Lemma legacy_and_secure_agree_witness :
  ∃ events,
    fst (processWalletRequest (platform := browser)
           (Cases.request "4" "GET_CHAIN_ID" JsUndefined) walletPage)
    = fst (legacy_response (platform := browser)
             (Cases.request "4" "GET_CHAIN_ID" JsUndefined) walletPage)
    ∧ window (snd (processWalletRequest (platform := browser)
                     (Cases.request "4" "GET_CHAIN_ID" JsUndefined) walletPage))
      = window (snd (legacy_response (platform := browser)
                       (Cases.request "4" "GET_CHAIN_ID" JsUndefined) walletPage))
    ∧ dappAuthenticator
        (snd (processWalletRequest (platform := browser)
                (Cases.request "4" "GET_CHAIN_ID" JsUndefined) walletPage))
      = dappAuthenticator
          (snd (legacy_response (platform := browser)
                  (Cases.request "4" "GET_CHAIN_ID" JsUndefined) walletPage))
    ∧ trace (snd (legacy_response (platform := browser)
                    (Cases.request "4" "GET_CHAIN_ID" JsUndefined) walletPage))
      = trace walletPage ++ events
    ∧ trace (snd (processWalletRequest (platform := browser)
                    (Cases.request "4" "GET_CHAIN_ID" JsUndefined) walletPage))
      = trace walletPage
        ++ ProcessWalletRequest (Cases.request "4" "GET_CHAIN_ID" JsUndefined) :: events.
Proof.
  exact (legacy_and_secure_agree (platform := browser)
           (Cases.request "4" "GET_CHAIN_ID" JsUndefined) walletPage).
Defined.

(** What the first adapter posts for that request: the response, unsigned. *)
Example legacy_onmessage_getChainId :
  legacy_onmessage (platform := browser)
    (Cases.request "4" "GET_CHAIN_ID" JsUndefined) walletPage
  = (Normal tt,
     logged walletPage
       [ ProviderRequest (method "eth_chainId");
         PostMessage
           (Unsigned (success (Cases.request "4" "GET_CHAIN_ID" JsUndefined)
                        (JsStr "0x1"))) ]).
Proof. vm_compute. reflexivity. Qed.

End MoreRuns.
